(** * articles: a shallow embedding of the static site generator

    The Go package [articles] (package.go) reads a notes file, splits it
    into article records, and writes an index page, one page per article
    and one page per tag.  This development embeds the package's functions
    as Rocq functions and states the properties of its specification over
    them.

    Conventions.
    - A Go [string] is a Rocq [string] (a sequence of bytes).
    - A Go [int] is a [Z] kept in the signed 64-bit range by [Int.wrap].
    - A Go slice is a [list]; [nil] and the empty slice are both [[]].
    - A result [(T, error)] is a pair of a [T] and an [option error]; a
      result [error] is an [option error], [None] for [nil].
    - A function that acts on the file system is a function from the file
      system before to the file system after and its result ([Os.IO]).
    - The standard-library functions the package calls ([strings], [path],
      [time], [os]) are modelled in modules of the same names.
    - The two external renderers (the markdown library and [html/template])
      are variables of the section that holds the package.
    - [range] over a Go map visits the keys in an order the language
      leaves open: the order is an argument [keys] of the functions that
      range over the tag map. *)

From Stdlib Require Import Ascii String ZArith.
From stdpp Require Import base list strings gmap sets pretty.

Local Open Scope Z_scope.

(** ** Go's [int] *)

Module Int.

Definition modulus : Z := 2 ^ 64.
Definition half : Z := 2 ^ 63.

(** Two's-complement wrap-around of a 64-bit signed integer. *)
Definition wrap (z : Z) : Z := (z + half) mod modulus - half.

(** [index++] *)
Definition incr (z : Z) : Z := wrap (z + 1).

End Int.

(** ** Package [strings] *)

Module Strings.

(** [strings.HasPrefix(s, prefix)] *)
Fixpoint HasPrefix (s prefix : string) : bool :=
  match prefix, s with
  | EmptyString, _ => true
  | String _ _, EmptyString => false
  | String p prefix', String c s' => Ascii.eqb p c && HasPrefix s' prefix'
  end.

(** Membership of a byte in a cutset. *)
Fixpoint inCutset (c : ascii) (cutset : string) : bool :=
  match cutset with
  | EmptyString => false
  | String d cutset' => Ascii.eqb c d || inCutset c cutset'
  end.

(** [strings.TrimLeft(s, cutset)] for a cutset of ASCII bytes (every call
    of the package passes one): the leading bytes of [s] that occur in
    [cutset] are removed, however many there are. *)
Fixpoint TrimLeft (s cutset : string) : string :=
  match s with
  | EmptyString => EmptyString
  | String c s' => if inCutset c cutset then TrimLeft s' cutset else s
  end.

(** [strings.TrimPrefix(s, prefix)]: not called by the package; it is the
    function that removes a literal prefix once. *)
Definition TrimPrefix (s prefix : string) : string :=
  if HasPrefix s prefix
  then String.substring (String.length prefix)
         (String.length s - String.length prefix) s
  else s.

Definition bytes (l : list nat) : string :=
  string_of_list_ascii (List.map ascii_of_nat l).

(** The UTF-8 encodings of the code points of [unicode.IsSpace]:
    tab, LF, VT, FF, CR, space, U+0085, U+00A0, U+1680, U+2000..U+200A,
    U+2028, U+2029, U+202F, U+205F, U+3000. *)
Definition spaceSeqs : list string :=
  List.map bytes
    [ [9]; [10]; [11]; [12]; [13]; [32];
      [194; 133]; [194; 160]; [225; 154; 128];
      [226; 128; 128]; [226; 128; 129]; [226; 128; 130]; [226; 128; 131];
      [226; 128; 132]; [226; 128; 133]; [226; 128; 134]; [226; 128; 135];
      [226; 128; 136]; [226; 128; 137]; [226; 128; 138];
      [226; 128; 168]; [226; 128; 169]; [226; 128; 175];
      [226; 129; 159]; [227; 128; 128] ]%nat.

(** Drops [prefix] from the front of [s] when it is there. *)
Fixpoint cut (s prefix : string) : option string :=
  match prefix, s with
  | EmptyString, _ => Some s
  | String _ _, EmptyString => None
  | String p prefix', String c s' =>
      if Ascii.eqb p c then cut s' prefix' else None
  end.

Fixpoint cutAny (s : string) (seqs : list string) : option string :=
  match seqs with
  | [] => None
  | q :: seqs' =>
      match cut s q with
      | Some s' => Some s'
      | None => cutAny s seqs'
      end
  end.

(** Removes leading occurrences of the sequences [seqs]; [fuel] bounds the
    number of removals and is the length of the string at the call. *)
Fixpoint trimSeqs (fuel : nat) (seqs : list string) (s : string) : string :=
  match fuel with
  | O => s
  | S fuel' =>
      match cutAny s seqs with
      | Some s' => trimSeqs fuel' seqs s'
      | None => s
      end
  end.

Definition revString (s : string) : string :=
  string_of_list_ascii (List.rev (list_ascii_of_string s)).

Definition trimLeftSpace (s : string) : string :=
  trimSeqs (String.length s) spaceSeqs s.

Definition trimRightSpace (s : string) : string :=
  revString
    (trimSeqs (String.length s) (List.map revString spaceSeqs) (revString s)).

(** [strings.TrimSpace(s)]: leading and trailing white space, as Unicode
    defines it, removed.  A byte sequence that is not the encoding of a
    white-space code point stops the trimming, as the invalid or
    non-space rune it decodes to does in Go. *)
Definition TrimSpace (s : string) : string :=
  trimRightSpace (trimLeftSpace s).

(** The loop of [strings.Split(s, sep)] for a non-empty [sep]: [skip]
    counts the bytes of a separator just matched that are still to pass,
    [cur] is the piece being read. *)
Fixpoint splitLoop (sep : string) (skip : nat) (cur s : string)
  : list string :=
  match s with
  | EmptyString => [cur]
  | String c s' =>
      match skip with
      | S k => splitLoop sep k cur s'
      | O =>
          if HasPrefix s sep
          then cur :: splitLoop sep (String.length sep - 1) EmptyString s'
          else splitLoop sep O (cur +:+ String c EmptyString) s'
      end
  end.

(** [strings.Split(s, sep)], [sep] non-empty. *)
Definition Split (s sep : string) : list string :=
  splitLoop sep O EmptyString s.

(** [strings.Join(elems, sep)] *)
Fixpoint Join (elems : list string) (sep : string) : string :=
  match elems with
  | [] => EmptyString
  | [e] => e
  | e :: elems' => e +:+ sep +:+ Join elems' sep
  end.

End Strings.

(** ** Package [time] *)

Module Time.

(** A [time.Time] that holds a calendar date at midnight UTC, which is all
    the layout [2006/01/02] can produce. *)
Record Time : Type := mkTime { Year : Z; Month : Z; Day : Z }.

(** The zero value [time.Time{}]: January 1, year 1. *)
Definition zero : Time := mkTime 1 1 1.

Definition isDigit (c : ascii) : bool :=
  let n := nat_of_ascii c in (48 <=? n)%nat && (n <=? 57)%nat.

Definition digit (c : ascii) : Z := Z.of_nat (nat_of_ascii c - 48).

Definition isLeap (year : Z) : bool :=
  (year mod 4 =? 0) && (negb (year mod 100 =? 0) || (year mod 400 =? 0)).

(** [daysIn(m, year)] *)
Definition daysIn (m year : Z) : Z :=
  if m =? 2 then (if isLeap year then 29 else 28)
  else if (m =? 4) || (m =? 6) || (m =? 9) || (m =? 11) then 30
  else 31.

(** [time.Parse("2006/01/02", value)]: four digits of year, a slash, two
    digits of month, a slash, two digits of day and nothing after them;
    the month is within 1..12 and the day within the month.  [None] is a
    returned [*time.ParseError]. *)
Definition Parse (value : string) : option Time :=
  match value with
  | String y1 (String y2 (String y3 (String y4 (String s1
      (String m1 (String m2 (String s2
        (String d1 (String d2 EmptyString))))))))) =>
      if forallb isDigit [y1; y2; y3; y4; m1; m2; d1; d2]
         && Ascii.eqb s1 "/" && Ascii.eqb s2 "/"
      then
        let year := 1000 * digit y1 + 100 * digit y2
                    + 10 * digit y3 + digit y4 in
        let month := 10 * digit m1 + digit m2 in
        let day := 10 * digit d1 + digit d2 in
        if (1 <=? month) && (month <=? 12)
           && (1 <=? day) && (day <=? daysIn month year)
        then Some (mkTime year month day)
        else None
      else None
  | _ => None
  end.

Definition monthName (m : Z) : string :=
  match m with
  | 1 => "Jan" | 2 => "Feb" | 3 => "Mar" | 4 => "Apr"
  | 5 => "May" | 6 => "Jun" | 7 => "Jul" | 8 => "Aug"
  | 9 => "Sep" | 10 => "Oct" | 11 => "Nov" | 12 => "Dec"
  | _ => ""
  end.

(** The year of [stdLongYear], zero-padded to four digits. *)
Definition pad4 (year : Z) : string :=
  let s := pretty year in
  match (4 - String.length s)%nat with
  | 3%nat => "000" +:+ s
  | 2%nat => "00" +:+ s
  | 1%nat => "0" +:+ s
  | _ => s
  end.

(** [t.Format("2 Jan 2006")] *)
Definition Format (t : Time) : string :=
  pretty (Day t) +:+ " " +:+ monthName (Month t) +:+ " " +:+ pad4 (Year t).

End Time.

(** ** Package [path] *)

Module Path.

(** The elements of a path: the pieces between its slashes. *)
Definition elements (p : string) : list string := Strings.Split p "/".

(** The loop of [path.Clean] over the elements of a path.  [out] holds the
    elements written so far, last first; [real] counts those that a [..]
    may remove (those after the root or after a leading run of [..]). *)
Fixpoint cleanLoop (rooted : bool) (out : list string) (real : nat)
    (els : list string) : list string :=
  match els with
  | [] => List.rev out
  | e :: els' =>
      if String.eqb e "" then cleanLoop rooted out real els'
      else if String.eqb e "." then cleanLoop rooted out real els'
      else if String.eqb e ".." then
        match real with
        | S k => cleanLoop rooted (List.tl out) k els'
        | O =>
            if rooted then cleanLoop rooted out O els'
            else cleanLoop rooted (e :: out) O els'
        end
      else cleanLoop rooted (e :: out) (S real) els'
  end.

(** [path.Clean(p)] *)
Definition Clean (p : string) : string :=
  match p with
  | EmptyString => "."
  | String c _ =>
      let rooted := Ascii.eqb c "/" in
      let body := Strings.Join (cleanLoop rooted [] O (elements p)) "/" in
      if rooted then "/" +:+ body
      else if String.eqb body "" then "." else body
  end.

(** [path.Join(elem...)]: the empty elements before the first non-empty
    one are dropped, the rest is joined with slashes and cleaned; no
    non-empty element gives the empty path. *)
Fixpoint Join (elem : list string) : string :=
  match elem with
  | [] => ""
  | e :: elem' =>
      if String.eqb e "" then Join elem'
      else Clean (Strings.Join elem "/")
  end.

(** The directory a cleaned path lies in: the path up to its last slash,
    [/] for an element of the root, [.] for a single element. *)
Definition parent (p : string) : string :=
  match List.rev (elements p) with
  | [] | [_] => "."
  | _ :: before =>
      let d := Strings.Join (List.rev before) "/" in
      if String.eqb d "" then "/" else d
  end.

End Path.

(** ** Errors *)

Inductive Errno : Type := ENOENT | EEXIST | EISDIR.

(** The two kinds of [error] the package can return: a [*time.ParseError]
    and an [*os.PathError]. *)
Inductive error : Type :=
| ParseError (layout value : string)
| PathError (op path : string) (errno : Errno).

(** ** Package [os]: the file system *)

Module Os.

(** What a run does to the file system, in order. *)
Inductive event : Type :=
| Opened (name : string)
| Written (name data : string)
| MadeDir (name : string).

(** The file system: the regular files with their bytes, the directories,
    and the trace of the operations performed so far.  Names are cleaned
    paths; permissions, links and devices are left out, so an operation
    fails only for the structural reasons below: a name that is a
    directory cannot be opened for writing, and a name can be created
    only in a directory that exists. *)
Record FS : Type := mkFS {
  files : gmap string string;
  dirs : gset string;
  trace : list event
}.

Definition log (e : event) (fs : FS) : FS :=
  mkFS (files fs) (dirs fs) (trace fs ++ [e]).

(** An operation that may fail. *)
Definition IO : Type := FS -> FS * option error.

(** [os.Stat(name)] finds something. *)
Definition exists_ (name : string) (fs : FS) : bool :=
  bool_decide (name ∈ dirs fs) || bool_decide (is_Some (files fs !! name)).

(** [os.Mkdir(name, perm)] *)
Definition Mkdir (name : string) : IO := fun fs =>
  if exists_ name fs then (fs, Some (PathError "mkdir" name EEXIST))
  else if bool_decide (Path.parent name ∈ dirs fs)
  then (log (MadeDir name) (mkFS (files fs) ({[name]} ∪ dirs fs) (trace fs)),
        None)
  else (fs, Some (PathError "mkdir" name ENOENT)).

(** [os.OpenFile(name, os.O_RDWR|os.O_CREATE, perm)]: an existing file is
    opened as it is, with its bytes kept; a missing one is created empty
    when its directory exists.  The handle is the name, at offset 0. *)
Definition OpenFile (name : string) : IO := fun fs =>
  if bool_decide (name ∈ dirs fs)
  then (fs, Some (PathError "open" name EISDIR))
  else match files fs !! name with
       | Some _ => (log (Opened name) fs, None)
       | None =>
           if bool_decide (Path.parent name ∈ dirs fs)
           then (log (Opened name)
                   (mkFS (<[name := ""]> (files fs)) (dirs fs) (trace fs)),
                 None)
           else (fs, Some (PathError "open" name ENOENT))
       end.

(** The bytes of [s] from offset [n] on. *)
Fixpoint skip (n : nat) (s : string) : string :=
  match n, s with
  | O, _ => s
  | S _, EmptyString => EmptyString
  | S k, String _ s' => skip k s'
  end.

(** Bytes [data] written at offset 0 over the bytes [old]: what lies
    beyond the written bytes stays. *)
Definition overwrite (data old : string) : string :=
  data +:+ skip (String.length data) old.

(** The writes of one [Execute] on a handle just opened: their bytes
    in sequence from offset 0. *)
Definition Write (name data : string) (fs : FS) : FS :=
  log (Written name data)
    (mkFS (<[name := overwrite data (default "" (files fs !! name))]> (files fs))
          (dirs fs) (trace fs)).

(** The bytes of a file, none for a missing one. *)
Definition content (name : string) (fs : FS) : string :=
  default "" (files fs !! name).

(** An output directory [base] with nothing in it yet. *)
Definition emptyDir (base : string) : FS := mkFS ∅ {[base]} [].

End Os.

(** ** The package's types *)

(** [type Article struct] *)
Record Article : Type := mkArticle {
  Header : string;
  Content : string;
  Tags : list string;
  Date : Time.Time;
  Index : Z
}.

(** The zero value [Article{}]. *)
Definition Article_zero : Article := mkArticle "" "" [] Time.zero 0.

(** [a.Index = index] *)
Definition setIndex (a : Article) (index : Z) : Article :=
  mkArticle (Header a) (Content a) (Tags a) (Date a) index.

(** [type pageArticle struct] *)
Record pageArticle : Type := mkPageArticle {
  pContent : string;
  StringDate : string;
  pTags : list string
}.

(** [type renderArticle struct] *)
Record renderArticle : Type := mkRenderArticle {
  rHeader : string;
  Link : string
}.

#[global] Instance Errno_eq_dec : EqDecision Errno.
Proof. solve_decision. Defined.
#[global] Instance error_eq_dec : EqDecision error.
Proof. solve_decision. Defined.
#[global] Instance event_eq_dec : EqDecision Os.event.
Proof. solve_decision. Defined.
#[global] Instance Time_eq_dec : EqDecision Time.Time.
Proof. solve_decision. Defined.
#[global] Instance Article_eq_dec : EqDecision Article.
Proof. solve_decision. Defined.

Definition newline : string := String "010"%char EmptyString.

(** [fmt.Sprintf("%d.html", index)] *)
Definition htmlName (index : Z) : string := pretty index +:+ ".html".

(** ** Sample renderers

    The package is stated for every markdown renderer and every template
    output.  Concrete runs fix these simple ones, so that they can be
    evaluated: the markdown source is passed through, and each page is a
    line of text that shows its data. *)

Definition sampleMarkdown (source : string) : string := source.

Definition sampleHome (listing : list renderArticle) : string :=
  "Articles: "
  +:+ Strings.Join (List.map (fun r => Link r +:+ " " +:+ rHeader r) listing)
                   ", ".

Definition samplePage (p : pageArticle) : string :=
  pContent p +:+ " Date: " +:+ StringDate p +:+ " Tags: "
  +:+ Strings.Join (pTags p) ", ".

Definition sampleTag (articles : list Article) (tag : string) : string :=
  "Tag: " +:+ tag +:+ " "
  +:+ Strings.Join (List.map (fun a => htmlName (Index a) +:+ " " +:+ Header a)
                             articles) ", ".

(** ** The package *)

Section Articles.

(** [md.RenderToString] of the markdown library, configured with
    [HTML(true)] and [Nofollow(true)]. *)
Variable RenderToString : string -> string.

(** The bytes [html/template] writes when it executes [homeTempl],
    [pageTempl] and [tagTempl] on their data.  The three templates are
    constants that parse, so [Parse] returns no error. *)
Variable ExecuteHome : list renderArticle -> string.
Variable ExecutePage : pageArticle -> string.
Variable ExecuteTag : list Article -> string -> string.

(** [func prepareForRender] *)
Definition prepareForRender (articles : list Article) : list renderArticle :=
  List.map (fun v => mkRenderArticle (Header v) (htmlName (Index v))) articles.

(** [func indexFile] *)
Definition indexFile (base : string) : string :=
  Path.Join [base; "index.html"].

(** [func articleFile] *)
Definition articleFile (base : string) (index : Z) : string :=
  Path.Join [base; htmlName index].

(** [func tagFile] *)
Definition tagFile (base tag : string) : string :=
  Path.Join [base; "tag"; tag +:+ ".html"].

(** Runs [k] when the operation before it returned no error. *)
Definition andThen (m : Os.IO) (k : Os.IO) : Os.IO := fun fs =>
  match m fs with
  | (fs', None) => k fs'
  | (fs', Some e) => (fs', Some e)
  end.

(** [f, err := os.OpenFile(name, ...)] followed by [t.Execute(f, data)]
    with [data] rendered to [bytes]. *)
Definition openAndExecute (name bytes : string) : Os.IO :=
  andThen (Os.OpenFile name) (fun fs => (Os.Write name bytes fs, None)).

(** [func generateArticlePage] *)
Definition generateArticlePage (base : string) (article : Article) : Os.IO :=
  let p := mkPageArticle (Content article) (Time.Format (Date article))
                         (Tags article) in
  openAndExecute (articleFile base (Index article)) (ExecutePage p).

(** [func generateArticlePages] *)
Fixpoint generateArticlePages (base : string) (articles : list Article)
  : Os.IO :=
  match articles with
  | [] => fun fs => (fs, None)
  | a :: rest =>
      andThen (generateArticlePage base a) (generateArticlePages base rest)
  end.

(** [func generateTagFile] *)
Definition generateTagFile (base tag : string) (articles : list Article)
  : Os.IO :=
  openAndExecute (tagFile base tag) (ExecuteTag articles tag).

(** [tagMap[tag] = append(tagMap[tag], v)] for the tags of one article. *)
Definition addTags (v : Article) (tagMap : gmap string (list Article))
  : gmap string (list Article) :=
  foldl (fun m tag => <[tag := default [] (m !! tag) ++ [v]]> m)
        tagMap (Tags v).

(** The map [generateTags] builds from the articles. *)
Definition buildTagMap (articles : list Article)
  : gmap string (list Article) :=
  foldl (fun m v => addTags v m) ∅ articles.

(** [for k, v := range tagMap], visiting the keys in the order [keys]. *)
Fixpoint rangeTagMap (base : string) (tagMap : gmap string (list Article))
    (keys : list string) : Os.IO :=
  match keys with
  | [] => fun fs => (fs, None)
  | k :: rest =>
      andThen (generateTagFile base k (default [] (tagMap !! k)))
              (rangeTagMap base tagMap rest)
  end.

(** Go leaves the order in which [range] visits a map open: an order is
    any arrangement of the map's keys, each once. *)
Definition rangeOrder (tagMap : gmap string (list Article))
    (keys : list string) : Prop :=
  keys ≡ₚ (map_to_list tagMap).*1.

(** [if _, err := os.Stat(tagDir); os.IsNotExist(err)] followed by
    [os.Mkdir(tagDir, 0700)]. *)
Definition ensureDir (tagDir : string) : Os.IO := fun fs =>
  if Os.exists_ tagDir fs then (fs, None) else Os.Mkdir tagDir fs.

(** [func generateTags]; [keys] is the order in which the run's [range]
    visits the tag map. *)
Definition generateTags (base : string) (articles : list Article)
    (keys : list string) : Os.IO :=
  let tagDir := Path.Join [base; "tag"] in
  andThen (ensureDir tagDir)
    (let tagMap := buildTagMap articles in
     andThen (Os.OpenFile (indexFile base))
             (rangeTagMap base tagMap keys)).

(** [func generateIndex] *)
Definition generateIndex (base : string) (articles : list Article) : Os.IO :=
  openAndExecute (indexFile base) (ExecuteHome (prepareForRender articles)).

(** The loop of [parseArticle] over the lines of a record. *)
Fixpoint scanLines (lines : list string) (dateLine tagsLine : string)
    (markDown : list string) : string * string * list string :=
  match lines with
  | [] => (dateLine, tagsLine, markDown)
  | line :: rest =>
      if Strings.HasPrefix line "Date:"
      then scanLines rest line tagsLine markDown
      else if Strings.HasPrefix line "Tags:"
      then scanLines rest dateLine line markDown
      else scanLines rest dateLine tagsLine (markDown ++ [line])
  end.

(** [func parseArticle] *)
Definition parseArticle (header : string) (lines : list string)
  : Article * option error :=
  let h := Strings.TrimSpace (Strings.TrimLeft header "# ") in
  let '(dateLine, tagsLine, markDown) := scanLines lines "" "" [header] in
  let dateLine := Strings.TrimSpace (Strings.TrimLeft dateLine "Date:") in
  match Time.Parse dateLine with
  | None => (Article_zero, Some (ParseError "2006/01/02" dateLine))
  | Some date =>
      let tagsLine := Strings.TrimLeft tagsLine "Tags:" in
      let tags := List.map Strings.TrimSpace (Strings.Split tagsLine ",") in
      (mkArticle h (RenderToString (Strings.Join markDown newline))
                 tags date 0,
       None)
  end.

(** The loop [for i := len(res) - 1; i >= 0; i--] of [reverse], with
    [k = i + 1]. *)
Fixpoint reverseLoop (res : list Article) (k : nat) (n : list Article)
  : list Article :=
  match k with
  | O => n
  | S i => reverseLoop res i (n ++ [default Article_zero (res !! i)])
  end.

(** [func reverse]: [make([]Article, len(res))] is a slice of [len(res)]
    zero articles, to which the loop appends. *)
Definition reverse (res : list Article) : list Article :=
  reverseLoop res (length res) (replicate (length res) Article_zero).

(** The loop of [parseFile] over the lines the scanner yields, and the
    statements after it. *)
Fixpoint scanFile (texts : list string) (res : list Article) (last : string)
    (lines : list string) (index : Z) : list Article * option error :=
  match texts with
  | [] =>
      if negb (String.eqb last "") then
        let '(a, err) := parseArticle last lines in
        match err with
        | Some e => ([], Some e)
        | None => (reverse (res ++ [setIndex a index]), None)
        end
      else (reverse res, None)
  | text :: rest =>
      if Strings.HasPrefix text "# " then
        if negb (String.eqb last "") then
          let '(a, err) := parseArticle last lines in
          let res' := res ++ [setIndex a index] in
          match err with
          | Some e => ([], Some e)
          | None => scanFile rest res' text [] (Int.incr index)
          end
        else scanFile rest res text lines index
      else scanFile rest res last (lines ++ [text]) index
  end.

(** [func parseFile], on the lines [bufio.Scanner] yields for the file.
    The embedding starts where the file has been opened: when [os.Open]
    fails, [log.Fatal] ends the process before anything is parsed or
    written.  A line that the scanner does not yield (one beyond a line
    longer than its buffer) is not in [texts]. *)
Definition parseFile (texts : list string) : list Article * option error :=
  scanFile texts [] "" [] 1.

(** [func Generate], on the lines of the notes file; [keys] is the order
    of the run's [range] over the tag map. *)
Definition Generate (texts : list string) (baseDir : string)
    (keys : list string) : Os.IO := fun fs =>
  match parseFile texts with
  | (_, Some e) => (fs, Some e)
  | (arr, None) =>
      andThen (generateIndex baseDir arr)
        (andThen (generateArticlePages baseDir arr)
                 (generateTags baseDir arr keys)) fs
  end.

(** ** The records of a notes file

    [parseFile] hands [parseArticle] one pair of a heading line and body
    lines per record.  [recordsLoop] is the loop of [scanFile] with the
    parsing left out: it returns those pairs in file order.  The lines
    before the first heading are in the body of the first record, as the
    loop resets [lines] only when it finalizes a record. *)
Fixpoint recordsLoop (texts : list string) (last : string)
    (lines : list string) : list (string * list string) :=
  match texts with
  | [] => if negb (String.eqb last "") then [(last, lines)] else []
  | text :: rest =>
      if Strings.HasPrefix text "# " then
        if negb (String.eqb last "")
        then (last, lines) :: recordsLoop rest text []
        else recordsLoop rest text lines
      else recordsLoop rest last (lines ++ [text])
  end.

Definition records (texts : list string) : list (string * list string) :=
  recordsLoop texts "" [].

(** The number of heading lines of a file. *)
Definition headings (texts : list string) : nat :=
  length (List.filter (fun text => Strings.HasPrefix text "# ") texts).

(** The indices [parseFile] assigns: [index], [index+1], ... *)
Fixpoint number (index : Z) (arts : list Article) : list Article :=
  match arts with
  | [] => []
  | a :: rest => setIndex a index :: number (Int.incr index) rest
  end.

(** Parses the records in order, up to the first error. *)
Fixpoint parseAll (recs : list (string * list string))
  : list Article * option error :=
  match recs with
  | [] => ([], None)
  | (header, lines) :: rest =>
      match parseArticle header lines with
      | (_, Some e) => ([], Some e)
      | (a, None) =>
          match parseAll rest with
          | (_, Some e) => ([], Some e)
          | (arts, None) => (a :: arts, None)
          end
      end
  end.

(** The date text [parseArticle] hands to [time.Parse] for a record. *)
Definition dateText (lines : list string) : string :=
  let '(dateLine, _, _) := scanLines lines "" "" [] in
  Strings.TrimSpace (Strings.TrimLeft dateLine "Date:").

(** The data of the [Written] events of a trace, in order. *)
Definition writes (evs : list Os.event) : list (string * string) :=
  omap (fun e => match e with
                 | Os.Written name data => Some (name, data)
                 | _ => None
                 end) evs.

(** The names the [Opened] events of a trace, in order. *)
Definition opens (evs : list Os.event) : list string :=
  omap (fun e => match e with
                 | Os.Opened name => Some name
                 | _ => None
                 end) evs.

(** ** Sequences of page writes

    [generateArticlePages] and the loop of [generateTags] both open and
    write one file after the other and stop at the first error:
    [runWrites] is that loop over the names and bytes. *)
Fixpoint runWrites (ws : list (string * string)) : Os.IO :=
  match ws with
  | [] => fun fs => (fs, None)
  | w :: rest => andThen (openAndExecute w.1 w.2) (runWrites rest)
  end.

(** The events of writes that succeed. *)
Definition eventsOf (ws : list (string * string)) : list Os.event :=
  flat_map (fun w => [Os.Opened w.1; Os.Written w.1 w.2]) ws.

(** The files after writes that succeed. *)
Definition writeFiles (ws : list (string * string))
    (m : gmap string string) : gmap string string :=
  foldl (fun m w => <[w.1 := Os.overwrite w.2 (default "" (m !! w.1))]> m)
        m ws.

(** The name and bytes of an article's page. *)
Definition pageWrite (base : string) (a : Article) : string * string :=
  (articleFile base (Index a),
   ExecutePage (mkPageArticle (Content a) (Time.Format (Date a)) (Tags a))).

(** The name and bytes of a tag's page. *)
Definition tagWrite (base : string) (tagMap : gmap string (list Article))
    (k : string) : string * string :=
  (tagFile base k, ExecuteTag (default [] (tagMap !! k)) k).


(** [os.OpenFile] with [O_RDWR|O_CREATE] succeeds on [name]: it is no
    directory, and it exists or its directory does. *)
Definition openable (ds : gset string) (m : gmap string string)
    (name : string) : Prop :=
  (name ∉ ds) /\ (is_Some (m !! name) \/ Path.parent name ∈ ds).

(** The writes of the index page and of the article pages. *)
Definition pageWrites (base : string) (articles : list Article)
  : list (string * string) :=
  (indexFile base, ExecuteHome (prepareForRender articles))
  :: List.map (pageWrite base) articles.

(** The writes of the tag pages, for an order of the tag map. *)
Definition tagWrites (base : string) (articles : list Article)
    (keys : list string) : list (string * string) :=
  List.map (tagWrite base (buildTagMap articles)) keys.

(** The steps of [Generate] before the loop over the tag map. *)
Definition beforeTags (base : string) (articles : list Article) : Os.IO :=
  andThen (runWrites (pageWrites base articles))
    (andThen (ensureDir (Path.Join [base; "tag"]))
             (Os.OpenFile (indexFile base))).

(** The articles that carry [tag], each once for every time [tag] is in
    its tag list, in the order of [articles]. *)
Definition carrying (tag : string) (articles : list Article) : list Article :=
  flat_map (fun a => List.map (fun _ => a)
                       (List.filter (String.eqb tag) (Tags a)))
           articles.

(** The value of a key of the tag map after [more] was appended to it. *)
Definition appended (value : option (list Article)) (more : list Article)
  : option (list Article) :=
  match more with
  | [] => value
  | _ :: _ => Some (default [] value ++ more)
  end.

(** From [fs] to [fs'] no directory and no file was removed, no file got
    shorter, and the trace was only extended. *)
Definition keeps (fs fs' : Os.FS) : Prop :=
  Os.dirs fs ⊆ Os.dirs fs'
  /\ (forall name old,
        Os.files fs !! name = Some old ->
        exists new, Os.files fs' !! name = Some new
                    /\ (String.length old <= String.length new)%nat)
  /\ exists evs, Os.trace fs' = Os.trace fs ++ evs.

(** The records of a file as the glossary of the specification words
    them, for comparison with [records]: a record is a heading line with
    the lines after it up to the next heading line or the end of the
    file, so the lines above the first heading are in no record.
    [current] is the record being read, if one has started. *)
Fixpoint glossaryLoop (texts : list string)
    (current : option (string * list string))
  : list (string * list string) :=
  match texts with
  | [] => option_list current
  | text :: rest =>
      if Strings.HasPrefix text "# "
      then option_list current ++ glossaryLoop rest (Some (text, []))
      else glossaryLoop rest
             (match current with
              | Some (heading, lines) => Some (heading, lines ++ [text])
              | None => None
              end)
  end.

Definition glossaryRecords (texts : list string)
  : list (string * list string) :=
  glossaryLoop texts None.

(** ** Lemmas on Go's [int] *)

Lemma wrap_small z : - Int.half <= z < Int.half -> Int.wrap z = z.
Proof.
  intros Hz. unfold Int.wrap, Int.modulus, Int.half in *.
  rewrite Z.mod_small; lia.
Qed.

Lemma incr_small z : 0 <= z < Int.half - 1 -> Int.incr z = z + 1.
Proof.
  intros Hz. unfold Int.incr. apply wrap_small. unfold Int.half in *. lia.
Qed.

(** ** Lemmas on [reverse] *)

Lemma reverseLoop_spec res k n :
  (k <= length res)%nat ->
  reverseLoop res k n = n ++ List.rev (take k res).
Proof.
  revert n. induction k as [|k IH]; intros n Hk; simpl.
  - by rewrite app_nil_r.
  - rewrite IH by lia.
    destruct (lookup_lt_is_Some_2 res k ltac:(lia)) as [x Hx].
    rewrite Hx. simpl. rewrite (take_S_r res k x Hx).
    rewrite rev_app_distr. simpl. by rewrite <- app_assoc.
Qed.

Lemma reverse_spec res :
  reverse res = replicate (length res) Article_zero ++ List.rev res.
Proof.
  unfold reverse. rewrite reverseLoop_spec by lia. by rewrite firstn_all.
Qed.

Lemma reverse_length res : length (reverse res) = (2 * length res)%nat.
Proof.
  rewrite reverse_spec, length_app, length_replicate, length_rev. lia.
Qed.

(** ** Lemmas on the parser *)

Lemma scanLines_fst lines d t m m' :
  (scanLines lines d t m).1 = (scanLines lines d t m').1.
Proof.
  revert d t m m'. induction lines as [|line rest IH]; intros d t m m'; simpl.
  - reflexivity.
  - destruct (Strings.HasPrefix line "Date:"); [apply IH|].
    destruct (Strings.HasPrefix line "Tags:"); apply IH.
Qed.

Lemma scanLines_no_date lines d t m :
  Forall (fun line => Strings.HasPrefix line "Date:" = false) lines ->
  (scanLines lines d t m).1.1 = d.
Proof.
  intros H. revert d t m.
  induction H as [|line rest Hl _ IH]; intros d t m; simpl.
  - reflexivity.
  - rewrite Hl. destruct (Strings.HasPrefix line "Tags:"); apply IH.
Qed.

Lemma scanLines_no_tags lines d t m :
  Forall (fun line => Strings.HasPrefix line "Tags:" = false) lines ->
  (scanLines lines d t m).1.2 = t.
Proof.
  intros H. revert d t m.
  induction H as [|line rest Hl _ IH]; intros d t m; simpl.
  - reflexivity.
  - rewrite Hl. destruct (Strings.HasPrefix line "Date:"); apply IH.
Qed.

Lemma dateText_no_date lines :
  Forall (fun line => Strings.HasPrefix line "Date:" = false) lines ->
  dateText lines = "".
Proof.
  intros H. unfold dateText.
  pose proof (scanLines_no_date lines "" "" [] H) as E.
  destruct (scanLines lines "" "" []) as [[d t] m]. simpl in E. by subst d.
Qed.

(** [parseArticle] returns an error exactly when the date text of the
    record does not parse. *)
Lemma parseArticle_date header lines :
  (parseArticle header lines).2
  = match Time.Parse (dateText lines) with
    | None => Some (ParseError "2006/01/02" (dateText lines))
    | Some _ => None
    end.
Proof.
  unfold parseArticle, dateText.
  pose proof (scanLines_fst lines "" "" [header] []) as E.
  destruct (scanLines lines "" "" [header]) as [[d t] m].
  destruct (scanLines lines "" "" []) as [[d' t'] m'].
  simpl in E. injection E as -> ->.
  by destruct (Time.Parse _).
Qed.

Lemma parseArticle_error header lines e :
  (parseArticle header lines).2 = Some e ->
  parseArticle header lines = (Article_zero, Some e).
Proof.
  unfold parseArticle.
  destruct (scanLines lines "" "" [header]) as [[d t] m].
  destruct (Time.Parse _); simpl; [done|]. by intros [= <-].
Qed.

Lemma scanFile_spec texts res last lines index :
  scanFile texts res last lines index
  = match parseAll (recordsLoop texts last lines) with
    | (_, Some e) => ([], Some e)
    | (arts, None) => (reverse (res ++ number index arts), None)
    end.
Proof.
  revert res last lines index.
  induction texts as [|text rest IH]; intros res last lines index; simpl.
  - destruct (negb (String.eqb last "")); simpl.
    + destruct (parseArticle last lines) as [a [e|]]; simpl; done.
    + by rewrite app_nil_r.
  - destruct (Strings.HasPrefix text "# "); [|apply IH].
    destruct (negb (String.eqb last "")); [|apply IH]. simpl.
    destruct (parseArticle last lines) as [a [e|]]; [done|].
    rewrite IH.
    destruct (parseAll (recordsLoop rest text [])) as [arts [e|]]; [done|].
    simpl. by rewrite <- app_assoc.
Qed.

(** [parseFile] parses the records of the file in order, numbers the
    articles from 1 and hands them to [reverse]. *)
Lemma parseFile_spec texts :
  parseFile texts
  = match parseAll (records texts) with
    | (_, Some e) => ([], Some e)
    | (arts, None) => (reverse (number 1 arts), None)
    end.
Proof. unfold parseFile, records. by rewrite scanFile_spec. Qed.

Lemma HasPrefix_nonempty text prefix :
  prefix <> "" -> Strings.HasPrefix text prefix = true ->
  String.eqb text "" = false.
Proof. destruct prefix, text; simpl; done. Qed.

Lemma recordsLoop_length texts last lines :
  length (recordsLoop texts last lines)
  = (headings texts + if negb (String.eqb last "") then 1 else 0)%nat.
Proof.
  revert last lines. unfold headings.
  induction texts as [|text rest IH]; intros last lines; simpl.
  - by destruct (negb (String.eqb last "")).
  - destruct (Strings.HasPrefix text "# ") eqn:Hp; [|apply IH].
    assert (String.eqb text "" = false) as Ht
      by (by apply (HasPrefix_nonempty text "# ")).
    destruct (negb (String.eqb last "")); simpl; rewrite IH, Ht; simpl; lia.
Qed.

(** One record per heading line. *)
Lemma records_length texts : length (records texts) = headings texts.
Proof. unfold records. rewrite recordsLoop_length. simpl. lia. Qed.

Lemma parseAll_length recs arts :
  parseAll recs = (arts, None) -> length arts = length recs.
Proof.
  revert arts. induction recs as [|[h ls] rest IH]; intros arts; simpl.
  - by intros [= <-].
  - destruct (parseArticle h ls) as [a [e|]]; [done|].
    destruct (parseAll rest) as [arts' [e|]]; [done|].
    intros [= <-]. simpl. f_equal. by apply IH.
Qed.

Lemma parseAll_error recs header lines :
  (header, lines) ∈ recs ->
  Time.Parse (dateText lines) = None ->
  exists e, parseAll recs = ([], Some e).
Proof.
  intros Hin Hd. induction recs as [|[h ls] rest IH]; [by inversion Hin|].
  simpl. destruct (parseArticle h ls) as [a [e|]] eqn:Hp; [by eexists|].
  apply elem_of_cons in Hin as [[= <- <-]|Hin].
  - pose proof (parseArticle_date header lines) as E.
    rewrite Hp, Hd in E. done.
  - destruct (IH Hin) as [e ->]. by eexists.
Qed.

Lemma number_length index arts : length (number index arts) = length arts.
Proof.
  revert index. induction arts as [|a rest IH]; intros index; simpl; [done|].
  by rewrite IH.
Qed.

(** What [parseFile] returns for a file whose records all parse: as many
    zero articles as there are records, then the articles last-parsed
    first. *)
Lemma parseFile_result texts arts :
  parseAll (records texts) = (arts, None) ->
  parseFile texts
  = (replicate (length arts) Article_zero ++ List.rev (number 1 arts), None).
Proof.
  intros H. rewrite parseFile_spec, H, reverse_spec.
  by rewrite number_length.
Qed.

(** ** The claims on the parser *)

(** C2 (the code departs from it): [parseFile] should return the reverse
    of the finalized records and nothing else.  On a file of one record
    the code returns two articles: a zero article, put there by
    [reverse], and then the record. *)
Theorem parseFile_one_record_has_zero_article :
  parseFile ["# A"; "Date: 2015/03/02"]
  = ([Article_zero;
      mkArticle "A" (RenderToString "# A") [""] (Time.mkTime 2015 3 2) 1],
     None).
Proof. reflexivity. Qed.

(** C3 (the code departs from it): the [Index] values of the articles
    [parseFile] returns should be pairwise unique.  On a file of two
    records the returned indices are 0, 0, 2, 1: the two zero articles
    of [reverse] share index 0, while the records keep their file-order
    indices 1 and 2. *)
Theorem parseFile_two_records_indices :
  List.map Index
    (parseFile ["# A"; "Date: 2015/03/02"; "# B"; "Date: 2015/03/03"]).1
  = [0; 0; 2; 1].
Proof. reflexivity. Qed.

(** C5 (the code departs from it): the tag list should be the pieces of
    the Tags line after its literal prefix [Tags:].  [strings.TrimLeft]
    takes a set of bytes, so it also removes the [s] of [sports]: the
    code's tags are [ports] and [art], where removing the prefix alone
    gives [sports] and [art]. *)
Theorem parseArticle_tags_cutset :
  Tags (parseArticle "# A" ["Date: 2015/03/02"; "Tags:sports, art"]).1
  = ["ports"; "art"]
  /\ List.map Strings.TrimSpace
       (Strings.Split (Strings.TrimPrefix "Tags:sports, art" "Tags:") ",")
     = ["sports"; "art"].
Proof. split; reflexivity. Qed.

(** C6: a record that has no line beginning with [Tags:] and that parses
    gets the tag list that holds the empty string alone. *)
Theorem parseArticle_no_tags_line header lines :
  Forall (fun line => Strings.HasPrefix line "Tags:" = false) lines ->
  (parseArticle header lines).2 = None ->
  Tags (parseArticle header lines).1 = [""].
Proof.
  intros Hno. unfold parseArticle.
  pose proof (scanLines_no_tags lines "" "" [header] Hno) as E.
  destruct (scanLines lines "" "" [header]) as [[d t] m]. simpl in E. subst t.
  by destruct (Time.Parse _).
Qed.

(** When a record, as [parseFile] forms it, has no Date line, or has a
    date text, as [parseArticle] computes it, that [time.Parse] refuses,
    [parseFile] returns an error and no article, and [Generate] returns
    that error with the file system as it was. *)
Lemma date_failure_aborts texts header lines baseDir keys fs :
  (header, lines) ∈ records texts ->
  Forall (fun line => Strings.HasPrefix line "Date:" = false) lines
  \/ Time.Parse (dateText lines) = None ->
  exists e,
    parseFile texts = ([], Some e)
    /\ Generate texts baseDir keys fs = (fs, Some e).
Proof.
  intros Hin Hbad.
  assert (Time.Parse (dateText lines) = None) as Hd.
  { destruct Hbad as [Hno|Hd]; [|done]. by rewrite dateText_no_date. }
  destruct (parseAll_error _ _ _ Hin Hd) as [e He].
  exists e. unfold Generate. rewrite parseFile_spec, He. done.
Qed.

Lemma generateArticlePages_runWrites base articles fs :
  generateArticlePages base articles fs
  = runWrites (List.map (pageWrite base) articles) fs.
Proof.
  revert fs. induction articles as [|a rest IH]; intros fs; simpl; [done|].
  unfold andThen. unfold generateArticlePage at 1. simpl.
  destruct (openAndExecute _ _ fs) as [fs' [e|]]; [done|]. apply IH.
Qed.

Lemma rangeTagMap_runWrites base tagMap keys fs :
  rangeTagMap base tagMap keys fs
  = runWrites (List.map (tagWrite base tagMap) keys) fs.
Proof.
  revert fs. induction keys as [|k rest IH]; intros fs; simpl; [done|].
  unfold andThen. unfold generateTagFile at 1. simpl.
  destruct (openAndExecute _ _ fs) as [fs' [e|]]; [done|]. apply IH.
Qed.

(** What one open-and-write does: on success the file holds the new bytes
    followed by what the old bytes had beyond them; on failure nothing
    has changed. *)
Lemma openAndExecute_spec name bytes fs :
  let r := openAndExecute name bytes fs in
  match r.2 with
  | None =>
      Os.files r.1
      = <[name := Os.overwrite bytes (Os.content name fs)]> (Os.files fs)
      /\ Os.dirs r.1 = Os.dirs fs
      /\ Os.trace r.1 = Os.trace fs ++ [Os.Opened name; Os.Written name bytes]
  | Some _ => r.1 = fs
  end.
Proof.
  unfold openAndExecute, andThen, Os.OpenFile, Os.content.
  destruct (bool_decide (name ∈ Os.dirs fs)); simpl; [done|].
  destruct (Os.files fs !! name) as [old|] eqn:Hf; simpl.
  - rewrite Hf. simpl. by rewrite <- app_assoc.
  - destruct (bool_decide (Path.parent name ∈ Os.dirs fs)); simpl; [|done].
    rewrite lookup_insert_eq, insert_insert_eq. simpl.
    by rewrite <- app_assoc.
Qed.

Lemma openAndExecute_OpenFile name bytes fs :
  (openAndExecute name bytes fs).2 = (Os.OpenFile name fs).2.
Proof.
  unfold openAndExecute, andThen.
  by destruct (Os.OpenFile name fs) as [fs' [e|]].
Qed.

Lemma writes_app evs evs' : writes (evs ++ evs') = writes evs ++ writes evs'.
Proof. unfold writes. apply omap_app. Qed.

Lemma writes_eventsOf ws : writes (eventsOf ws) = ws.
Proof.
  induction ws as [|[n b] rest IH]; simpl; [done|].
  unfold writes in *. simpl. by rewrite IH.
Qed.

Lemma opens_eventsOf ws : opens (eventsOf ws) = ws.*1.
Proof.
  induction ws as [|[n b] rest IH]; simpl; [done|].
  unfold opens in *. simpl. by rewrite IH.
Qed.

(** What a sequence of writes does: a prefix of it is performed, all of
    it when no error is returned. *)
Lemma runWrites_spec ws fs :
  let r := runWrites ws fs in
  exists performed,
    performed `prefix_of` ws
    /\ (r.2 = None -> performed = ws)
    /\ Os.trace r.1 = Os.trace fs ++ eventsOf performed
    /\ Os.dirs r.1 = Os.dirs fs
    /\ Os.files r.1 = writeFiles performed (Os.files fs).
Proof.
  revert fs. induction ws as [|w rest IH]; intros fs; simpl.
  - exists []. simpl. by rewrite app_nil_r.
  - unfold andThen.
    pose proof (openAndExecute_spec w.1 w.2 fs) as Hw. simpl in Hw.
    destruct (openAndExecute w.1 w.2 fs) as [fs1 [e|]]; simpl in *.
    + subst fs1. exists []. simpl. rewrite app_nil_r.
      split; [apply prefix_nil|]. done.
    + destruct Hw as (Hf & Hd & Ht).
      destruct (IH fs1) as (performed & Hp & Hall & Ht' & Hd' & Hf').
      exists (w :: performed). split; [by apply prefix_cons|].
      split; [intros H; by rewrite (Hall H)|].
      split; [rewrite Ht', Ht; simpl; by rewrite <- app_assoc|].
      split; [congruence|].
      rewrite Hf'. simpl. by rewrite Hf.
Qed.

(** ** Lemmas on the file system *)

Lemma skip_append a b : Os.skip (String.length a) (a +:+ b) = b.
Proof. induction a as [|c a IH]; simpl; [by destruct b|done]. Qed.

Lemma openAndExecute_content name bytes fs :
  let r := openAndExecute name bytes fs in
  Os.content name r.1
  = match r.2 with
    | None => bytes +:+ Os.skip (String.length bytes) (Os.content name fs)
    | Some _ => Os.content name fs
    end.
Proof.
  pose proof (openAndExecute_spec name bytes fs) as H. simpl in *.
  destruct (openAndExecute name bytes fs) as [fs' [e|]]; simpl in *.
  - by subst fs'.
  - destruct H as (Hf & _ & _). unfold Os.content at 1.
    by rewrite Hf, lookup_insert_eq.
Qed.

Lemma openAndExecute_stale name bytes fs :
  Os.skip (String.length bytes)
    (Os.content name (openAndExecute name bytes fs).1)
  = Os.skip (String.length bytes) (Os.content name fs).
Proof.
  pose proof (openAndExecute_content name bytes fs) as H. simpl in H.
  rewrite H. destruct (openAndExecute name bytes fs).2; [done|].
  apply skip_append.
Qed.

Lemma ensureDir_spec tagDir fs :
  let r := ensureDir tagDir fs in
  Os.files r.1 = Os.files fs
  /\ exists evs,
       Os.trace r.1 = Os.trace fs ++ evs
       /\ writes evs = [] /\ opens evs = [].
Proof.
  unfold ensureDir, Os.Mkdir.
  destruct (Os.exists_ tagDir fs); simpl.
  - split; [done|]. exists []. by rewrite app_nil_r.
  - destruct (bool_decide (Path.parent tagDir ∈ Os.dirs fs)); simpl.
    + split; [done|]. by exists [Os.MadeDir tagDir].
    + split; [done|]. exists []. by rewrite app_nil_r.
Qed.

Lemma OpenFile_spec name fs :
  let r := Os.OpenFile name fs in
  match r.2 with
  | None =>
      Os.trace r.1 = Os.trace fs ++ [Os.Opened name]
      /\ Os.dirs r.1 = Os.dirs fs
      /\ forall n, Os.content n r.1 = Os.content n fs
  | Some _ => r.1 = fs
  end.
Proof.
  unfold Os.OpenFile, Os.content.
  destruct (bool_decide (name ∈ Os.dirs fs)); simpl; [done|].
  destruct (Os.files fs !! name) as [old|] eqn:Hf; simpl; [done|].
  destruct (bool_decide (Path.parent name ∈ Os.dirs fs)); simpl; [|done].
  split; [done|]. split; [done|]. intros n.
  destruct (decide (name = n)) as [<-|Hne].
  - by rewrite lookup_insert_eq, Hf.
  - by rewrite lookup_insert_ne.
Qed.


(** The keys of the tag map are tags of the articles. *)
Lemma addTags_key v m k :
  is_Some (addTags v m !! k) -> is_Some (m !! k) \/ k ∈ Tags v.
Proof.
  unfold addTags. generalize (Tags v) as tags. intros tags. revert m.
  induction tags as [|t tags IH]; intros m; simpl; [by left|].
  intros H. destruct (IH _ H) as [H'|H'].
  - destruct (decide (t = k)) as [->|Hne].
    + right. apply list_elem_of_here.
    + left. by rewrite lookup_insert_ne in H'.
  - right. by apply list_elem_of_further.
Qed.

Lemma buildTagMap_key articles k :
  is_Some (buildTagMap articles !! k) ->
  exists a, a ∈ articles /\ k ∈ Tags a.
Proof.
  unfold buildTagMap.
  assert (forall m, is_Some (foldl (fun m v => addTags v m) m articles !! k) ->
                    is_Some (m !! k) \/ exists a, a ∈ articles /\ k ∈ Tags a)
    as Hgen.
  { induction articles as [|a rest IH]; intros m; simpl; [by left|].
    intros H. destruct (IH _ H) as [H'|(a' & Ha' & Hk)].
    - destruct (addTags_key _ _ _ H') as [H''|H'']; [by left|].
      right. exists a. split; [apply list_elem_of_here|done].
    - right. exists a'. split; [by apply list_elem_of_further|done]. }
  intros H. destruct (Hgen ∅ H) as [H'|H']; [|done].
  rewrite lookup_empty in H'. by destruct H'.
Qed.

Lemma rangeOrder_key articles keys k :
  rangeOrder (buildTagMap articles) keys -> k ∈ keys ->
  exists a, a ∈ articles /\ k ∈ Tags a.
Proof.
  unfold rangeOrder. intros Hp Hk. rewrite Hp in Hk.
  apply list_elem_of_fmap in Hk as ([k' v] & -> & Hkv).
  apply elem_of_map_to_list in Hkv. apply buildTagMap_key.
  simpl. by exists v.
Qed.

(** ** The claims on the written files *)

(** C7: the index page, an article page and a tag page are each opened
    without truncation and written from offset 0.  When the open
    succeeds, the file holds the new bytes followed by the bytes the old
    content had beyond them; when it fails the file is as it was.  Either
    way the old bytes from the length of the new content on are still
    there. *)
Theorem output_files_not_truncated base articles article tag fs :
  let kept := fun (name bytes : string) (r : Os.FS * option error) =>
    Os.content name r.1
    = match r.2 with
      | None => bytes +:+ Os.skip (String.length bytes) (Os.content name fs)
      | Some _ => Os.content name fs
      end
    /\ Os.skip (String.length bytes) (Os.content name r.1)
       = Os.skip (String.length bytes) (Os.content name fs) in
  kept (indexFile base) (ExecuteHome (prepareForRender articles))
       (generateIndex base articles fs)
  /\ kept (articleFile base (Index article))
          (ExecutePage (mkPageArticle (Content article)
                          (Time.Format (Date article)) (Tags article)))
          (generateArticlePage base article fs)
  /\ kept (tagFile base tag) (ExecuteTag articles tag)
          (generateTagFile base tag articles fs).
Proof.
  simpl. unfold generateIndex, generateArticlePage, generateTagFile.
  repeat split;
    first [apply openAndExecute_content | apply openAndExecute_stale].
Qed.


Lemma recordsLoop_no_heading texts lines :
  Forall (fun text => Strings.HasPrefix text "# " = false) texts ->
  recordsLoop texts "" lines = [].
Proof.
  intros H. revert lines.
  induction H as [|text rest Ht _ IH]; intros lines; simpl; [done|].
  rewrite Ht. apply IH.
Qed.

(** C8: a notes file with no heading line parses to the empty sequence
    with no error, and [Generate] then writes one file only, the index
    page, with the home template executed on the empty listing; it writes
    no article page and no tag page.  (When the index file cannot be
    opened, nothing is written at all.) *)
Theorem no_heading_no_pages texts baseDir keys fs :
  Forall (fun text => Strings.HasPrefix text "# " = false) texts ->
  rangeOrder (buildTagMap (parseFile texts).1) keys ->
  let r := Generate texts baseDir keys fs in
  parseFile texts = ([], None)
  /\ prepareForRender (parseFile texts).1 = []
  /\ exists evs,
       Os.trace r.1 = Os.trace fs ++ evs
       /\ writes evs
          = match (Os.OpenFile (indexFile baseDir) fs).2 with
            | None => [(indexFile baseDir, ExecuteHome [])]
            | Some _ => []
            end.
Proof.
  intros Hno Hord.
  assert (parseFile texts = ([], None)) as Hp.
  { rewrite parseFile_spec. unfold records.
    by rewrite recordsLoop_no_heading. }
  assert (keys = []) as ->.
  { rewrite Hp in Hord. unfold rangeOrder, buildTagMap in Hord.
    simpl in Hord. rewrite map_to_list_empty in Hord.
    by apply Permutation_nil_r. }
  simpl. split; [done|]. rewrite Hp. split; [done|].
  unfold Generate. rewrite Hp. unfold andThen, generateIndex. simpl.
  pose proof (openAndExecute_spec (indexFile baseDir) (ExecuteHome []) fs)
    as Hw.
  rewrite <- (openAndExecute_OpenFile (indexFile baseDir) (ExecuteHome []) fs).
  simpl in Hw.
  destruct (openAndExecute (indexFile baseDir) (ExecuteHome []) fs)
    as [fs1 [e|]]; simpl in *.
  { subst fs1. exists []. by rewrite app_nil_r. }
  destruct Hw as (Hf1 & Hd1 & Ht1).
  unfold generateTags, andThen.
  destruct (ensureDir_spec (Path.Join [baseDir; "tag"]) fs1)
    as (Hf2 & evs2 & Ht2 & Hw2 & Ho2).
  destruct (ensureDir (Path.Join [baseDir; "tag"]) fs1) as [fs2 [e|]];
    simpl in *.
  { eexists. split; [rewrite Ht2, Ht1, <- app_assoc; reflexivity|].
    rewrite writes_app, Hw2. done. }
  pose proof (OpenFile_spec (indexFile baseDir) fs2) as Ho. simpl in Ho.
  destruct (Os.OpenFile (indexFile baseDir) fs2) as [fs3 [e|]]; simpl in *.
  { subst fs3. eexists. split; [rewrite Ht2, Ht1, <- app_assoc; reflexivity|].
    rewrite writes_app, Hw2. done. }
  destruct Ho as (Ht3 & _ & _).
  eexists. split; [rewrite Ht3, Ht2, Ht1, <- !app_assoc; reflexivity|].
  rewrite !writes_app, Hw2. done.
Qed.

(** C1 (the code departs from it): [Generate] should write one article
    page per heading line.  On a file with one heading line and an empty
    output directory it writes two: the page [0.html] of the zero article
    that [reverse] puts before the record, and the page [1.html] of the
    record. *)
Theorem Generate_one_heading_two_pages :
  let texts := ["# A"; "Date: 2015/03/02"] in
  let r := Generate texts "docs" [""] (Os.emptyDir "docs") in
  headings texts = 1%nat
  /\ r.2 = None
  /\ (writes (Os.trace r.1)).*1
     = ["docs/index.html"; "docs/0.html"; "docs/1.html"; "docs/tag/.html"].
Proof. vm_compute. done. Qed.

(** ** Lemmas on overwriting *)

Lemma append_cons c s t : String c s +:+ t = String c (s +:+ t).
Proof. reflexivity. Qed.









(** ** Lemmas on sequences of writes *)






Lemma writeFiles_is_Some ws m name :
  is_Some (m !! name) \/ name ∈ ws.*1 ->
  is_Some (writeFiles ws m !! name).
Proof.
  revert m. induction ws as [|w ws IH]; intros m H; simpl.
  - destruct H as [H|H]; [done|by inversion H].
  - apply IH. destruct (decide (w.1 = name)) as [<-|Hne].
    + left. by rewrite lookup_insert_eq.
    + rewrite lookup_insert_ne by done.
      destruct H as [H|H]; [by left|right].
      simpl in H. by apply elem_of_cons in H as [->|H].
Qed.

(** ** When the writes succeed *)

Lemma OpenFile_ok name fs :
  (Os.OpenFile name fs).2 = None <-> openable (Os.dirs fs) (Os.files fs) name.
Proof.
  unfold Os.OpenFile, openable.
  destruct (bool_decide (name ∈ Os.dirs fs)) eqn:Hd; simpl.
  { apply bool_decide_eq_true in Hd. split; [done|]. by intros [? _]. }
  apply bool_decide_eq_false in Hd.
  destruct (Os.files fs !! name) as [old|] eqn:Hf; simpl.
  { split; [|done]. intros _. split; [done|]. left. by eexists. }
  destruct (bool_decide (Path.parent name ∈ Os.dirs fs)) eqn:Hp; simpl.
  - apply bool_decide_eq_true in Hp. split; [|done]. intros _. by split; [|right].
  - apply bool_decide_eq_false in Hp. split; [done|].
    intros [_ [[? ?]|?]]; done.
Qed.

Lemma openable_insert ds m name v n :
  openable ds m name ->
  (openable ds (<[name := v]> m) n <-> openable ds m n).
Proof.
  intros [Hnd Hn]. unfold openable.
  destruct (decide (name = n)) as [<-|Hne].
  - rewrite lookup_insert_eq. split; intros [? _]; split; try done.
    left. by eexists.
  - by rewrite lookup_insert_ne.
Qed.

(** A sequence of writes returns no error exactly when each of its files
    can be opened at the start: the order of the writes does not
    matter. *)
Lemma runWrites_ok ws fs :
  (runWrites ws fs).2 = None
  <-> Forall (openable (Os.dirs fs) (Os.files fs)) ws.*1.
Proof.
  revert fs. induction ws as [|w ws IH]; intros fs; simpl.
  - split; [by constructor|done].
  - unfold andThen.
    pose proof (openAndExecute_spec w.1 w.2 fs) as Hs.
    pose proof (openAndExecute_OpenFile w.1 w.2 fs) as Ho.
    pose proof (OpenFile_ok w.1 fs) as Hok. simpl in Hs.
    destruct (openAndExecute w.1 w.2 fs) as [fs1 [e|]]; simpl in *.
    + split; [done|]. intros H. apply Forall_cons in H as [H _].
      apply Hok in H. congruence.
    + destruct Hs as (Hf & Hd & _).
      assert (openable (Os.dirs fs) (Os.files fs) w.1) as Hw
        by (apply Hok; congruence).
      rewrite IH, Hf, Hd, Forall_cons.
      split.
      * intros H. split; [done|].
        eapply Forall_impl; [exact H|]. intros n Hn.
        by apply (openable_insert _ _ _ _ _ Hw) in Hn.
      * intros [_ H]. eapply Forall_impl; [exact H|]. intros n Hn.
        by apply (openable_insert _ _ _ _ _ Hw).
Qed.

(** ** The steps of [Generate] *)

Lemma Generate_steps texts base keys fs articles :
  parseFile texts = (articles, None) ->
  Generate texts base keys fs
  = andThen (beforeTags base articles)
            (runWrites (tagWrites base articles keys)) fs.
Proof.
  intros Hp. unfold Generate, beforeTags, pageWrites, generateIndex,
    generateTags, tagWrites.
  rewrite Hp. simpl. unfold andThen.
  destruct (openAndExecute _ _ fs) as [fs1 [e|]]; [done|].
  rewrite generateArticlePages_runWrites.
  destruct (runWrites _ fs1) as [fs2 [e|]]; [done|].
  destruct (ensureDir _ fs2) as [fs3 [e|]]; [done|].
  destruct (Os.OpenFile _ fs3) as [fs4 [e|]]; [done|].
  apply rangeTagMap_runWrites.
Qed.

Lemma tagWrites_names base articles keys :
  (tagWrites base articles keys).*1 = tagFile base <$> keys.
Proof.
  unfold tagWrites. induction keys as [|k keys IH]; [done|].
  cbn [List.map fmap list_fmap fst tagWrite]. f_equal. exact IH.
Qed.

Lemma exists_iff name fs :
  Os.exists_ name fs = true
  <-> name ∈ Os.dirs fs \/ is_Some (Os.files fs !! name).
Proof.
  unfold Os.exists_. rewrite orb_true_iff, !bool_decide_eq_true. done.
Qed.

Lemma ensureDir_ok tagDir fs fs' :
  ensureDir tagDir fs = (fs', None) ->
  Os.files fs' = Os.files fs
  /\ Os.exists_ tagDir fs' = true
  /\ forall n, n ∈ Os.dirs fs' ->
       n ∈ Os.dirs fs \/ (n = tagDir /\ Os.files fs !! n = None).
Proof.
  unfold ensureDir, Os.Mkdir.
  destruct (Os.exists_ tagDir fs) eqn:He.
  { intros [= <-]. split; [done|]. split; [done|]. by left. }
  destruct (bool_decide (Path.parent tagDir ∈ Os.dirs fs)); [|done].
  intros [= <-]. simpl. split; [done|]. split.
  - apply exists_iff. simpl. left. apply elem_of_union. left.
    by apply elem_of_singleton.
  - intros n Hn. apply elem_of_union in Hn as [Hn|Hn]; [|by left].
    apply elem_of_singleton in Hn as ->. right. split; [done|].
    destruct (Os.files fs !! tagDir) eqn:Hf; [|done].
    assert (Os.exists_ tagDir fs = true) as He'
      by (apply exists_iff; right; by eexists).
    congruence.
Qed.

(** What holds after the steps before the tag loop, when they return no
    error. *)
Lemma beforeTags_first base articles fs fs' :
  beforeTags base articles fs = (fs', None) ->
  Os.files fs' = writeFiles (pageWrites base articles) (Os.files fs)
  /\ Os.exists_ (Path.Join [base; "tag"]) fs' = true
  /\ forall n, n ∈ (pageWrites base articles).*1 -> n ∉ Os.dirs fs'.
Proof.
  unfold beforeTags, andThen. intros H.
  pose proof (runWrites_spec (pageWrites base articles) fs) as Hs.
  pose proof (runWrites_ok (pageWrites base articles) fs) as Hok.
  cbv zeta in Hs.
  destruct (runWrites (pageWrites base articles) fs) as [fs1 [e|]];
    [done|]. cbn [fst snd] in *.
  destruct Hs as (performed & _ & Hall & _ & Hd1 & Hf1).
  rewrite (Hall eq_refl) in Hf1. clear Hall performed.
  destruct (ensureDir _ fs1) as [fs2 [e|]] eqn:He; [done|].
  apply ensureDir_ok in He as (Hf2 & Hex & Hd2).
  pose proof (OpenFile_spec (indexFile base) fs2) as Ho. cbv zeta in Ho.
  assert (is_Some (Os.files fs2 !! indexFile base)) as [old Hold].
  { rewrite Hf2, Hf1. apply writeFiles_is_Some. right.
    apply list_elem_of_here. }
  unfold Os.OpenFile in H, Ho. rewrite Hold in H, Ho.
  destruct (bool_decide (indexFile base ∈ Os.dirs fs2)); [done|].
  injection H as <-. cbn [Os.files Os.dirs Os.log].
  split; [congruence|]. split.
  { apply exists_iff. apply exists_iff in Hex. done. }
  intros n Hn Hdir. destruct (Hd2 n Hdir) as [Hin|[-> Hnone]].
  - rewrite Hd1 in Hin.
    assert (Forall (openable (Os.dirs fs) (Os.files fs))
              (pageWrites base articles).*1) as Hall by (by apply Hok).
    rewrite Forall_forall in Hall. by destruct (Hall n Hn).
  - assert (is_Some (Os.files fs1 !! Path.Join [base; "tag"])) as [? Hsome].
    { rewrite Hf1. apply writeFiles_is_Some. by right. }
    congruence.
Qed.



(** ** What the code does in general *)

Lemma number_indices index arts n :
  index = Z.of_nat n ->
  Z.of_nat (n + length arts) < Int.half ->
  List.map Index (number index arts) = Z.of_nat <$> seq n (length arts).
Proof.
  revert index n. induction arts as [|a rest IH]; intros index n -> Hn;
    [done|].
  cbn [number List.map length seq fmap list_fmap setIndex Index].
  f_equal. apply IH.
  - rewrite incr_small; [lia|]. simpl in Hn. lia.
  - simpl in Hn. lia.
Qed.

(** For a file whose records all parse, the articles [parseFile] returns
    carry these indices: 0 for each of the zero articles that [reverse]
    puts first, one per record, and then the file-order numbers of the
    records from the last record down to 1. *)
Theorem parseFile_indices texts arts :
  parseAll (records texts) = (arts, None) ->
  Z.of_nat (1 + length arts) < Int.half ->
  List.map Index (parseFile texts).1
  = replicate (headings texts) 0
    ++ List.rev (Z.of_nat <$> seq 1 (headings texts)).
Proof.
  intros Hp Hn. rewrite (parseFile_result _ _ Hp). cbn [fst].
  rewrite <- records_length, <- (parseAll_length _ _ Hp).
  rewrite map_app, map_rev, (number_indices 1 arts 1%nat) by done.
  f_equal. generalize (length arts) as k. clear.
  induction k as [|k IH]; simpl; congruence.
Qed.

(** A run of [Generate] that returns no error writes, in this order, the
    index page, one page per article that [parseFile] returned, and one
    page per key of the tag map. *)
Theorem Generate_writes texts baseDir keys fs fs' articles :
  parseFile texts = (articles, None) ->
  Generate texts baseDir keys fs = (fs', None) ->
  exists evs,
    Os.trace fs' = Os.trace fs ++ evs
    /\ writes evs
       = pageWrites baseDir articles ++ tagWrites baseDir articles keys.
Proof.
  intros Hp Hrun. rewrite (Generate_steps _ _ _ _ _ Hp) in Hrun.
  unfold andThen, beforeTags in Hrun. unfold andThen in Hrun.
  pose proof (runWrites_spec (pageWrites baseDir articles) fs) as Hs1.
  cbv zeta in Hs1.
  destruct (runWrites (pageWrites baseDir articles) fs) as [fs1 [e|]];
    [done|]. cbn [fst snd] in Hs1.
  destruct Hs1 as (p1 & _ & Hall1 & Ht1 & _ & _).
  rewrite (Hall1 eq_refl) in Ht1. clear Hall1 p1.
  destruct (ensureDir_spec (Path.Join [baseDir; "tag"]) fs1)
    as (_ & evs2 & Ht2 & Hw2 & _).
  destruct (ensureDir _ fs1) as [fs2 [e|]]; [done|]. cbn [fst] in Ht2.
  pose proof (OpenFile_spec (indexFile baseDir) fs2) as Ho. cbv zeta in Ho.
  destruct (Os.OpenFile (indexFile baseDir) fs2) as [fs3 [e|]]; [done|].
  cbn [fst snd] in Ho. destruct Ho as (Ht3 & _ & _).
  pose proof (runWrites_spec (tagWrites baseDir articles keys) fs3) as Hs4.
  cbv zeta in Hs4. rewrite Hrun in Hs4. cbn [fst snd] in Hs4.
  destruct Hs4 as (p4 & _ & Hall4 & Ht4 & _ & _).
  rewrite (Hall4 eq_refl) in Ht4. clear Hall4 p4.
  eexists. split.
  - rewrite Ht4, Ht3, Ht2, Ht1, <- !app_assoc. reflexivity.
  - rewrite !writes_app, !writes_eventsOf, Hw2. done.
Qed.

(** ** More on the parser *)

Lemma scanLines_app l1 l2 d t m :
  scanLines (l1 ++ l2) d t m
  = let '(d1, t1, m1) := scanLines l1 d t m in scanLines l2 d1 t1 m1.
Proof.
  revert d t m. induction l1 as [|line rest IH]; intros d t m; simpl.
  - done.
  - destruct (Strings.HasPrefix line "Date:"); [apply IH|].
    destruct (Strings.HasPrefix line "Tags:"); apply IH.
Qed.

(** The lines of a record that go to the markdown renderer. *)
Lemma scanLines_markDown lines d t m :
  (scanLines lines d t m).2
  = m ++ List.filter
           (fun line => negb (Strings.HasPrefix line "Date:")
                        && negb (Strings.HasPrefix line "Tags:")) lines.
Proof.
  revert d t m. induction lines as [|line rest IH]; intros d t m; simpl.
  - by rewrite app_nil_r.
  - destruct (Strings.HasPrefix line "Date:"); simpl; [apply IH|].
    destruct (Strings.HasPrefix line "Tags:"); simpl; [apply IH|].
    rewrite IH. by rewrite <- app_assoc.
Qed.

Lemma Tags_prefix_not_Date line :
  Strings.HasPrefix line "Tags:" = true ->
  Strings.HasPrefix line "Date:" = false.
Proof.
  destruct line as [|c line]; [done|]. cbn [Strings.HasPrefix]. intros H.
  destruct (Ascii.eqb "T" c) eqn:E; [|done].
  apply Ascii.eqb_eq in E. by subst c.
Qed.

Lemma splitLoop_cons sep skip cur s :
  exists piece rest, Strings.splitLoop sep skip cur s = piece :: rest.
Proof.
  revert skip cur.
  induction s as [|c s IH]; intros skip cur; cbn [Strings.splitLoop].
  - by eexists _, _.
  - destruct skip as [|k]; [|apply IH].
    destruct (Strings.HasPrefix (String c s) sep); [by eexists _, _|apply IH].
Qed.

Lemma parseAll_ok_iff recs :
  (parseAll recs).2 = None
  <-> Forall (fun r => is_Some (Time.Parse (dateText r.2))) recs.
Proof.
  induction recs as [|[h ls] rest IH]; simpl.
  - split; [by constructor|done].
  - pose proof (parseArticle_date h ls) as Hd.
    destruct (parseArticle h ls) as [a [e|]]; simpl in *.
    + split; [done|]. intros H. apply Forall_cons in H as [[d H] _].
      simpl in H. by rewrite H in Hd.
    + rewrite Forall_cons. simpl.
      destruct (Time.Parse (dateText ls)) as [d|]; [|done].
      destruct (parseAll rest) as [arts [e|]]; simpl in *.
      * split; [done|]. intros [_ H]. by apply IH in H.
      * split; [|done]. intros _. split; [by eexists|]. by apply IH.
Qed.

(** [reverse] returns as many zero articles as its argument has
    elements, followed by the elements last first. *)
Theorem reverse_zero_articles_then_reversed res :
  reverse res = replicate (length res) Article_zero ++ List.rev res.
Proof. apply reverse_spec. Qed.

(** [parseFile] returns no error exactly when the date text of every
    record parses.  It then returns two articles per heading line; with
    an error it returns no article. *)
Theorem parseFile_succeeds_iff texts :
  ((parseFile texts).2 = None
   <-> Forall (fun r => is_Some (Time.Parse (dateText r.2))) (records texts))
  /\ ((parseFile texts).2 = None ->
      length (parseFile texts).1 = (2 * headings texts)%nat)
  /\ (forall e, (parseFile texts).2 = Some e -> (parseFile texts).1 = []).
Proof.
  rewrite parseFile_spec. rewrite <- parseAll_ok_iff.
  destruct (parseAll (records texts)) as [arts [e|]] eqn:Hp; simpl.
  - split; [done|]. split; done.
  - split; [done|]. split; [|done]. intros _.
    rewrite reverse_length, number_length, (parseAll_length _ _ Hp).
    by rewrite records_length.
Qed.

(** The last line of a record that starts with [Date:] is the one whose
    date the article gets. *)
Theorem last_date_line_wins header before dateLine after date :
  Strings.HasPrefix dateLine "Date:" = true ->
  Forall (fun line => Strings.HasPrefix line "Date:" = false) after ->
  Time.Parse (Strings.TrimSpace (Strings.TrimLeft dateLine "Date:"))
  = Some date ->
  (parseArticle header (before ++ dateLine :: after)).2 = None
  /\ Date (parseArticle header (before ++ dateLine :: after)).1 = date.
Proof.
  intros Hd Hafter Hparse. unfold parseArticle.
  rewrite scanLines_app.
  destruct (scanLines before "" "" [header]) as [[d1 t1] m1].
  cbn [scanLines]. rewrite Hd.
  pose proof (scanLines_no_date after dateLine t1 m1 Hafter) as E.
  destruct (scanLines after dateLine t1 m1) as [[d2 t2] m2].
  simpl in E. subst d2. by rewrite Hparse.
Qed.

(** The last line of a record that starts with [Tags:] is the one whose
    pieces, cut at the commas and trimmed, are the tags of the article. *)
Theorem last_tags_line_wins header before tagsLine after :
  Strings.HasPrefix tagsLine "Tags:" = true ->
  Forall (fun line => Strings.HasPrefix line "Tags:" = false) after ->
  (parseArticle header (before ++ tagsLine :: after)).2 = None ->
  Tags (parseArticle header (before ++ tagsLine :: after)).1
  = List.map Strings.TrimSpace
      (Strings.Split (Strings.TrimLeft tagsLine "Tags:") ",").
Proof.
  intros Ht Hafter. unfold parseArticle.
  rewrite scanLines_app.
  destruct (scanLines before "" "" [header]) as [[d1 t1] m1].
  cbn [scanLines]. rewrite Ht, (Tags_prefix_not_Date _ Ht).
  pose proof (scanLines_no_tags after d1 tagsLine m1 Hafter) as E.
  destruct (scanLines after d1 tagsLine m1) as [[d2 t2] m2].
  simpl in E. subst t2. by destruct (Time.Parse _).
Qed.

(** The markdown source of an article is its heading line followed by
    the lines of the record that start with neither [Date:] nor [Tags:],
    in their order, joined by newlines; the heading of the article is the
    heading line without its leading [#] and space characters, trimmed. *)
Theorem parseArticle_content header lines :
  (parseArticle header lines).2 = None ->
  Content (parseArticle header lines).1
  = RenderToString
      (Strings.Join
         (header
          :: List.filter
               (fun line => negb (Strings.HasPrefix line "Date:")
                            && negb (Strings.HasPrefix line "Tags:")) lines)
         newline)
  /\ Header (parseArticle header lines).1
     = Strings.TrimSpace (Strings.TrimLeft header "# ")
  /\ Index (parseArticle header lines).1 = 0.
Proof.
  unfold parseArticle.
  pose proof (scanLines_markDown lines "" "" [header]) as E.
  destruct (scanLines lines "" "" [header]) as [[d t] m]. simpl in E.
  subst m. by destruct (Time.Parse _).
Qed.

(** An article that parses has at least one tag, so it is listed on at
    least one tag page. *)
Theorem parseArticle_has_a_tag header lines :
  (parseArticle header lines).2 = None ->
  exists tag rest, Tags (parseArticle header lines).1 = tag :: rest.
Proof.
  unfold parseArticle.
  destruct (scanLines lines "" "" [header]) as [[d t] m].
  destruct (Time.Parse _); [|done]. intros _. simpl.
  unfold Strings.Split.
  destruct (splitLoop_cons "," 0 "" (Strings.TrimLeft t "Tags:"))
    as (piece & rest & ->).
  by eexists _, _.
Qed.

(** The lines above the first heading line belong to the record of that
    heading: the file parses as if they stood right below it. *)
Theorem lines_above_first_heading above heading below :
  Forall (fun text => Strings.HasPrefix text "# " = false) above ->
  Strings.HasPrefix heading "# " = true ->
  parseFile (above ++ heading :: below)
  = parseFile (heading :: above ++ below)
  /\ records (above ++ heading :: below)
     = records (heading :: above ++ below).
Proof.
  intros Habove Hh.
  assert (forall texts lines,
            Forall (fun text => Strings.HasPrefix text "# " = false) texts ->
            forall last rest,
              recordsLoop (texts ++ rest) last lines
              = recordsLoop rest last (lines ++ texts)) as Hacc.
  { intros texts lines H. revert lines.
    induction H as [|text texts Ht _ IH]; intros lines last rest; simpl.
    - by rewrite app_nil_r.
    - rewrite Ht, IH. by rewrite <- app_assoc. }
  assert (records (above ++ heading :: below)
          = records (heading :: above ++ below)) as Hrec.
  { unfold records. rewrite Hacc by done. simpl. rewrite Hh. simpl.
    by rewrite Hacc. }
  split; [|done]. by rewrite !parseFile_spec, Hrec.
Qed.

(** ** The tag map *)

Lemma appended_app value more more' :
  appended (appended value more) more' = appended value (more ++ more').
Proof.
  destruct more as [|a more]; [done|].
  destruct more' as [|a' more']; simpl.
  - by rewrite app_nil_r.
  - by rewrite <- app_assoc.
Qed.

Lemma addTags_lookup v m k :
  addTags v m !! k
  = appended (m !! k)
      (List.map (fun _ => v) (List.filter (String.eqb k) (Tags v))).
Proof.
  unfold addTags. generalize (Tags v) as tags. intros tags. revert m.
  induction tags as [|t tags IH]; intros m; [done|].
  cbn [foldl List.filter]. rewrite IH.
  destruct (String.eqb k t) eqn:E.
  - apply String.eqb_eq in E. subst t.
    rewrite lookup_insert_eq.
    change (Some (default [] (m !! k) ++ [v]))
      with (appended (m !! k) [v]).
    by rewrite appended_app.
  - apply String.eqb_neq in E. by rewrite lookup_insert_ne.
Qed.

Lemma carrying_elem a articles tag :
  a ∈ articles -> tag ∈ Tags a -> a ∈ carrying tag articles.
Proof.
  intros Ha Ht. unfold carrying. apply list_elem_of_In, in_flat_map.
  exists a. split; [by apply list_elem_of_In|].
  apply in_map_iff. exists tag. split; [done|].
  apply filter_In. split; [by apply list_elem_of_In|].
  apply String.eqb_refl.
Qed.

(** The tag map groups the articles by tag: the value of a tag is the
    list of the articles that carry it, in the order of the articles, and
    a tag that no article carries is no key. *)
Theorem buildTagMap_groups articles tag :
  buildTagMap articles !! tag
  = match carrying tag articles with
    | [] => None
    | a :: rest => Some (a :: rest)
    end.
Proof.
  unfold buildTagMap.
  assert (forall m,
            foldl (fun m v => addTags v m) m articles !! tag
            = appended (m !! tag) (carrying tag articles)) as Hgen.
  { induction articles as [|a rest IH]; intros m; [done|].
    cbn [foldl]. rewrite IH, addTags_lookup, appended_app. done. }
  rewrite Hgen, lookup_empty. by destruct (carrying tag articles).
Qed.

(** The keys a [range] over the tag map visits are the tags that some
    article carries, each once. *)
Theorem tag_pages_one_per_tag articles keys :
  rangeOrder (buildTagMap articles) keys ->
  NoDup keys
  /\ forall tag, tag ∈ keys <-> exists a, a ∈ articles /\ tag ∈ Tags a.
Proof.
  intros Hord. unfold rangeOrder in Hord. split.
  - rewrite Hord. apply NoDup_fst_map_to_list.
  - intros tag. split; [by apply rangeOrder_key|].
    intros (a & Ha & Ht). rewrite Hord.
    apply list_elem_of_fmap.
    pose proof (buildTagMap_groups articles tag) as Hg.
    pose proof (carrying_elem a articles tag Ha Ht) as Hc.
    destruct (carrying tag articles) as [|a' rest]; [by inversion Hc|].
    exists (tag, a' :: rest). split; [done|].
    by apply elem_of_map_to_list.
Qed.

(** ** What a run keeps *)

Lemma length_append a b :
  String.length (a +:+ b) = (String.length a + String.length b)%nat.
Proof.
  induction a as [|c a IH]; [done|].
  rewrite append_cons. simpl. by rewrite IH.
Qed.

Lemma skip_length n s :
  String.length (Os.skip n s) = (String.length s - n)%nat.
Proof.
  revert s. induction n as [|n IH]; intros s; simpl; [lia|].
  destruct s as [|c s]; simpl; [done|]. apply IH.
Qed.

(** A file written from offset 0 without truncation is as long as the
    longer of the new bytes and the old bytes. *)
Lemma overwrite_length data old :
  String.length (Os.overwrite data old)
  = (String.length data `max` String.length old)%nat.
Proof. unfold Os.overwrite. rewrite length_append, skip_length. lia. Qed.

Lemma keeps_refl fs : keeps fs fs.
Proof.
  split; [done|]. split.
  - intros name old H. by exists old.
  - exists []. by rewrite app_nil_r.
Qed.

Lemma keeps_trans fs1 fs2 fs3 : keeps fs1 fs2 -> keeps fs2 fs3 -> keeps fs1 fs3.
Proof.
  intros (Hd1 & Hf1 & evs1 & Ht1) (Hd2 & Hf2 & evs2 & Ht2).
  split; [by etrans|]. split.
  - intros name old H. destruct (Hf1 _ _ H) as (mid & Hmid & Hle1).
    destruct (Hf2 _ _ Hmid) as (new & Hnew & Hle2).
    exists new. split; [done|lia].
  - exists (evs1 ++ evs2). by rewrite Ht2, Ht1, <- app_assoc.
Qed.

Lemma andThen_keeps (m k : Os.IO) :
  (forall fs, keeps fs (m fs).1) -> (forall fs, keeps fs (k fs).1) ->
  forall fs, keeps fs (andThen m k fs).1.
Proof.
  intros Hm Hk fs. unfold andThen. specialize (Hm fs).
  destruct (m fs) as [fs1 [e|]]; [done|].
  eapply keeps_trans; [exact Hm|apply Hk].
Qed.

Lemma OpenFile_keeps name fs : keeps fs (Os.OpenFile name fs).1.
Proof.
  unfold Os.OpenFile, Os.log.
  destruct (bool_decide (name ∈ Os.dirs fs)); [apply keeps_refl|].
  destruct (Os.files fs !! name) as [old|] eqn:Hf; simpl.
  - split; [done|]. split; [|by eexists].
    intros n o H. by exists o.
  - destruct (bool_decide (Path.parent name ∈ Os.dirs fs)); simpl;
      [|apply keeps_refl].
    split; [done|]. split; [|by eexists].
    intros n o H. exists o. split; [|done]. simpl.
    rewrite lookup_insert_ne; [done|]. intros <-. congruence.
Qed.

Lemma Write_keeps name bytes fs : keeps fs (Os.Write name bytes fs).
Proof.
  unfold Os.Write, Os.log. split; [done|]. split; [|by eexists].
  intros n o H. simpl. destruct (decide (name = n)) as [<-|Hne].
  - rewrite lookup_insert_eq, H. simpl. eexists. split; [done|].
    rewrite overwrite_length. lia.
  - rewrite lookup_insert_ne by done. by exists o.
Qed.

Lemma openAndExecute_keeps name bytes fs :
  keeps fs (openAndExecute name bytes fs).1.
Proof.
  unfold openAndExecute. apply andThen_keeps.
  - apply OpenFile_keeps.
  - intros fs'. apply Write_keeps.
Qed.

Lemma runWrites_keeps ws fs : keeps fs (runWrites ws fs).1.
Proof.
  revert fs. induction ws as [|w ws IH]; intros fs; simpl.
  - apply keeps_refl.
  - apply andThen_keeps; [apply openAndExecute_keeps|apply IH].
Qed.

Lemma ensureDir_keeps tagDir fs : keeps fs (ensureDir tagDir fs).1.
Proof.
  unfold ensureDir, Os.Mkdir, Os.log.
  destruct (Os.exists_ tagDir fs); [apply keeps_refl|].
  destruct (bool_decide (Path.parent tagDir ∈ Os.dirs fs)); simpl;
    [|apply keeps_refl].
  split; [apply union_subseteq_r|]. split; [|by eexists].
  intros n o H. by exists o.
Qed.

Lemma generateTags_keeps base articles keys fs :
  keeps fs (generateTags base articles keys fs).1.
Proof.
  unfold generateTags. apply andThen_keeps; [apply ensureDir_keeps|].
  apply andThen_keeps; [apply OpenFile_keeps|].
  intros fs'. rewrite rangeTagMap_runWrites. apply runWrites_keeps.
Qed.

(** Whatever the notes file and whether or not it returns an error, a run
    of [Generate] removes no file and no directory, and no file that was
    there is shorter afterwards. *)
Theorem Generate_removes_nothing texts baseDir keys fs :
  let fs' := (Generate texts baseDir keys fs).1 in
  Os.dirs fs ⊆ Os.dirs fs'
  /\ (forall name old,
        Os.files fs !! name = Some old ->
        exists new, Os.files fs' !! name = Some new
                    /\ (String.length old <= String.length new)%nat)
  /\ exists evs, Os.trace fs' = Os.trace fs ++ evs.
Proof.
  cbv zeta. fold (keeps fs (Generate texts baseDir keys fs).1).
  unfold Generate. destruct (parseFile texts) as [arr [e|]];
    [apply keeps_refl|].
  apply andThen_keeps; [intros fs0; apply openAndExecute_keeps|].
  apply andThen_keeps; [|intros fs0; apply generateTags_keeps].
  intros fs0. rewrite generateArticlePages_runWrites. apply runWrites_keeps.
Qed.

(** [generateArticlePages] stops at the first page it cannot open: the
    pages before it are written and stay written, and the articles after
    it are not looked at. *)
Theorem generateArticlePages_stops_at_first_error base articles fs fs' e :
  generateArticlePages base articles fs = (fs', Some e) ->
  exists written failed rest,
    articles = written ++ failed :: rest
    /\ generateArticlePages base written fs = (fs', None)
    /\ Os.OpenFile (articleFile base (Index failed)) fs' = (fs', Some e).
Proof.
  revert fs. induction articles as [|a rest IH]; intros fs; simpl; [done|].
  unfold andThen at 1.
  destruct (generateArticlePage base a fs) as [fs1 [e1|]] eqn:Ha.
  - intros [= -> ->]. exists [], a, rest. split; [done|]. split.
    + simpl. f_equal.
      unfold generateArticlePage, openAndExecute, andThen in Ha.
      destruct (Os.OpenFile _ fs) as [fs2 [e2|]] eqn:Ho; [|done].
      pose proof (OpenFile_spec (articleFile base (Index a)) fs) as Hs.
      rewrite Ho in Hs. simpl in Hs. congruence.
    + unfold generateArticlePage, openAndExecute, andThen in Ha.
      destruct (Os.OpenFile _ fs) as [fs2 [e2|]] eqn:Ho; [|done].
      pose proof (OpenFile_spec (articleFile base (Index a)) fs) as Hs.
      rewrite Ho in Hs. simpl in Hs. subst fs2.
      injection Ha as <- <-. done.
  - intros H. destruct (IH _ H) as (written & failed & rest' & -> & Hw & Hf).
    exists (a :: written), failed, rest'. split; [done|]. split; [|done].
    simpl. unfold andThen. by rewrite Ha.
Qed.

Lemma ensureDir_dirs tagDir fs fs' :
  ensureDir tagDir fs = (fs', None) ->
  (Os.files fs !! tagDir = None -> tagDir ∈ Os.dirs fs')
  /\ (Os.exists_ tagDir fs = true -> Os.dirs fs' = Os.dirs fs).
Proof.
  unfold ensureDir, Os.Mkdir.
  destruct (Os.exists_ tagDir fs) eqn:He.
  - intros [= <-]. split; [|done]. intros Hnone.
    apply exists_iff in He as [Hd|[old Hf]]; [done|congruence].
  - destruct (bool_decide (Path.parent tagDir ∈ Os.dirs fs)); [|done].
    intros [= <-]. simpl. split; [|done]. intros _.
    apply elem_of_union. left. by apply elem_of_singleton.
Qed.

(** After a tag step that returns no error, the name of the tag
    directory is a directory, unless a regular file had that name before
    the step: then [os.Stat] finds the file and no directory is made.
    When the name exists before the step, no directory is made; the tag
    directory is the only directory the step can make. *)
Theorem generateTags_makes_tag_directory base articles keys fs fs' :
  generateTags base articles keys fs = (fs', None) ->
  (Os.files fs !! Path.Join [base; "tag"] = None ->
   Path.Join [base; "tag"] ∈ Os.dirs fs')
  /\ (Os.exists_ (Path.Join [base; "tag"]) fs = true ->
      Os.dirs fs' = Os.dirs fs)
  /\ Os.dirs fs' ⊆ {[Path.Join [base; "tag"]]} ∪ Os.dirs fs.
Proof.
  unfold generateTags, andThen. intros H.
  destruct (ensureDir _ fs) as [fs1 [e|]] eqn:He; [done|].
  destruct (ensureDir_ok _ _ _ He) as (_ & _ & Hd1).
  destruct (ensureDir_dirs _ _ _ He) as (Hmade & Hsame).
  pose proof (OpenFile_spec (indexFile base) fs1) as Ho. cbv zeta in Ho.
  destruct (Os.OpenFile (indexFile base) fs1) as [fs2 [e|]]; [done|].
  cbn [fst snd] in Ho. destruct Ho as (_ & Hd2 & _).
  rewrite rangeTagMap_runWrites in H.
  pose proof (runWrites_spec
                (List.map (tagWrite base (buildTagMap articles)) keys) fs2)
    as Hs.
  cbv zeta in Hs. rewrite H in Hs. cbn [fst snd] in Hs.
  destruct Hs as (_ & _ & _ & _ & Hd3 & _).
  rewrite Hd3, Hd2. split; [done|]. split; [done|].
  intros n Hn. apply elem_of_union.
  destruct (Hd1 n Hn) as [Hin|[-> _]]; [by right|left].
  by apply elem_of_singleton.
Qed.

(** [Generate] writes the index page first: when the notes file parses
    and the index file cannot be opened, the run returns the error of the
    open and the file system is as it was. *)
Theorem Generate_index_unopenable texts baseDir keys fs e :
  (parseFile texts).2 = None ->
  (Os.OpenFile (indexFile baseDir) fs).2 = Some e ->
  Generate texts baseDir keys fs = (fs, Some e).
Proof.
  intros Hp Ho. unfold Generate.
  destruct (parseFile texts) as [arr [e'|]]; [done|].
  unfold andThen at 1, generateIndex.
  pose proof (openAndExecute_spec (indexFile baseDir)
                (ExecuteHome (prepareForRender arr)) fs) as Hs.
  pose proof (openAndExecute_OpenFile (indexFile baseDir)
                (ExecuteHome (prepareForRender arr)) fs) as He.
  cbv zeta in Hs. rewrite Ho in He.
  destruct (openAndExecute _ _ fs) as [fs1 e1]. cbn [fst snd] in *.
  subst e1. by subst fs1.
Qed.

Lemma pageWrites_names base articles :
  (pageWrites base articles).*1
  = indexFile base
    :: List.map (fun a => articleFile base (Index a)) articles.
Proof.
  unfold pageWrites. rewrite fmap_cons. cbn [fst]. f_equal.
  induction articles as [|a rest IH]; [done|].
  cbn [List.map]. rewrite fmap_cons. cbn [pageWrite fst]. by rewrite IH.
Qed.

(** After a run of [Generate] that returns no error, the index file, the
    page of every article [parseFile] returned and the page of every key
    of the tag map are regular files of the output. *)
Theorem Generate_files_exist texts baseDir keys fs fs' articles name :
  parseFile texts = (articles, None) ->
  Generate texts baseDir keys fs = (fs', None) ->
  name ∈ (indexFile baseDir
          :: List.map (fun a => articleFile baseDir (Index a)) articles)
         ++ List.map (tagFile baseDir) keys ->
  is_Some (Os.files fs' !! name).
Proof.
  intros Hp Hrun Hname. rewrite (Generate_steps _ _ _ _ _ Hp) in Hrun.
  unfold andThen in Hrun.
  destruct (beforeTags baseDir articles fs) as [fsp [e|]] eqn:Hb; [done|].
  destruct (beforeTags_first _ _ _ _ Hb) as (Hfp & _ & _).
  pose proof (runWrites_spec (tagWrites baseDir articles keys) fsp) as Hs.
  cbv zeta in Hs. rewrite Hrun in Hs. cbn [fst snd] in Hs.
  destruct Hs as (performed & _ & Hall & _ & _ & Hf).
  rewrite (Hall eq_refl) in Hf. rewrite Hf, Hfp.
  apply writeFiles_is_Some. rewrite tagWrites_names.
  apply elem_of_app in Hname as [Hname|Hname]; [left|by right].
  apply writeFiles_is_Some. right. by rewrite pageWrites_names.
Qed.

(** ** Records without a date that parses *)

Lemma dateText_last before dateLine after :
  Strings.HasPrefix dateLine "Date:" = true ->
  Forall (fun line => Strings.HasPrefix line "Date:" = false) after ->
  dateText (before ++ dateLine :: after)
  = Strings.TrimSpace (Strings.TrimLeft dateLine "Date:").
Proof.
  intros Hd Hafter. unfold dateText. rewrite scanLines_app.
  destruct (scanLines before "" "" []) as [[d1 t1] m1].
  cbn [scanLines]. rewrite Hd.
  pose proof (scanLines_no_date after dateLine t1 m1 Hafter) as E.
  destruct (scanLines after dateLine t1 m1) as [[d2 t2] m2].
  simpl in E. by subst d2.
Qed.

(** C4, amended: a record is a heading line with the lines [parseFile]
    collects for it, which for the first record include the lines above
    the first heading.  When a record of the file has no line that starts
    with [Date:], or when its last such line has nothing but the prefix
    [Date:] removed by the code (the prefix is not followed by one of its
    own characters) and its text after the prefix, trimmed, does not
    parse as a year/month/day date, [parseFile] returns an error and no
    article, and [Generate] returns that error with the file system as it
    was: nothing is opened, created or written. *)
Theorem missing_or_bad_date_aborts texts header lines baseDir keys fs :
  (header, lines) ∈ records texts ->
  Forall (fun line => Strings.HasPrefix line "Date:" = false) lines
  \/ (exists before dateLine after,
        lines = before ++ dateLine :: after
        /\ Strings.HasPrefix dateLine "Date:" = true
        /\ Forall (fun line => Strings.HasPrefix line "Date:" = false) after
        /\ Strings.TrimLeft dateLine "Date:"
           = Strings.TrimPrefix dateLine "Date:"
        /\ Time.Parse
             (Strings.TrimSpace (Strings.TrimPrefix dateLine "Date:"))
           = None) ->
  exists e,
    parseFile texts = ([], Some e)
    /\ Generate texts baseDir keys fs = (fs, Some e).
Proof.
  intros Hin Hbad. apply (date_failure_aborts texts header lines); [done|].
  destruct Hbad as [Hno|(before & dateLine & after & -> & Hd & Hafter
                         & Hcut & Hparse)]; [by left|].
  right. by rewrite dateText_last, Hcut.
Qed.

(** On a file that starts with a heading line the records of the parser
    are the records of the glossary; the two differ only in the lines
    above the first heading. *)
Lemma records_glossary heading rest :
  Strings.HasPrefix heading "# " = true ->
  records (heading :: rest) = glossaryRecords (heading :: rest).
Proof.
  intros Hh. unfold records, glossaryRecords. simpl. rewrite Hh. simpl.
  assert (String.eqb heading "" = false) as Hne
    by (by apply (HasPrefix_nonempty heading "# ")).
  generalize (@nil string) as lines. revert heading Hh Hne.
  induction rest as [|text rest IH]; intros heading Hh Hne lines; simpl.
  - by rewrite Hne.
  - destruct (Strings.HasPrefix text "# ") eqn:Ht.
    + rewrite Hne. simpl. f_equal. apply IH; [done|].
      by apply (HasPrefix_nonempty text "# ").
    + by apply IH.
Qed.

End Articles.

(** ** Concrete runs *)

Abbreviation sampleGenerate :=
  (Generate sampleMarkdown sampleHome samplePage sampleTag).

(** *** The library models *)

Example TrimSpace_ascii :
  Strings.TrimSpace "  a b	 " = "a b".
Proof. reflexivity. Qed.

Example TrimSpace_nbsp :
  Strings.TrimSpace (Strings.bytes [194; 160; 97; 226; 128; 131]%nat) = "a".
Proof. reflexivity. Qed.

Example Split_commas :
  Strings.Split " a, b,,c" "," = [" a"; " b"; ""; "c"].
Proof. reflexivity. Qed.

Example Split_empty : Strings.Split "" "," = [""].
Proof. reflexivity. Qed.

Example TrimLeft_cutset : Strings.TrimLeft "Tags:sports" "Tags:" = "ports".
Proof. reflexivity. Qed.

Example Parse_ok : Time.Parse "2015/03/02" = Some (Time.mkTime 2015 3 2).
Proof. reflexivity. Qed.

Example Parse_empty : Time.Parse "" = None.
Proof. reflexivity. Qed.

Example Parse_day_range : Time.Parse "2015/02/30" = None.
Proof. reflexivity. Qed.

Example Format_date : Time.Format (Time.mkTime 2015 3 2) = "2 Mar 2015".
Proof. vm_compute. reflexivity. Qed.

Example Format_zero : Time.Format Time.zero = "1 Jan 0001".
Proof. vm_compute. reflexivity. Qed.

Example Join_index : Path.Join ["docs"; "index.html"] = "docs/index.html".
Proof. reflexivity. Qed.

Example Join_dotdot :
  Path.Join ["docs"; "tag"; "../index.html"] = "docs/index.html".
Proof. reflexivity. Qed.

Example Join_dot : Path.Join ["docs"; "tag"; "./a.html"] = "docs/tag/a.html".
Proof. reflexivity. Qed.

Example Join_empty_base : Path.Join [""; "index.html"] = "index.html".
Proof. reflexivity. Qed.

Example Clean_cases :
  List.map Path.Clean ["a//b/"; "/../a"; "../../a/.."; "a/.."; "/"; "a/b/../../.."]
  = ["a/b"; "/a"; "../.."; "."; "/"; ".."].
Proof. reflexivity. Qed.

Example parent_cases :
  List.map Path.parent ["docs/tag/a.html"; "index.html"; "/x"; "docs/tag"]
  = ["docs/tag"; "."; "/"; "docs"].
Proof. reflexivity. Qed.

(** *** The package *)

(** A stale tail: a second, shorter index page over a longer one. *)
Example shorter_index_keeps_tail :
  let fs := Os.mkFS {["docs/index.html" := "0123456789ABCDEFGHIJ"]}
                    {["docs"]} [] in
  Os.content "docs/index.html" (generateIndex sampleHome "docs" [] fs).1
  = "Articles: ABCDEFGHIJ".
Proof. vm_compute. reflexivity. Qed.

Lemma parseArticle_no_tags_line_witness :
  Tags (parseArticle sampleMarkdown "# A" ["Date: 2015/03/02"; "text"]).1
  = [""].
Proof.
  apply (parseArticle_no_tags_line sampleMarkdown "# A"
           ["Date: 2015/03/02"; "text"]).
  - repeat constructor.
  - reflexivity.
Defined.

Lemma no_heading_no_pages_witness :
  parseFile sampleMarkdown ["a note"; "with no heading"] = ([], None)
  /\ prepareForRender
       (parseFile sampleMarkdown ["a note"; "with no heading"]).1 = []
  /\ exists evs,
       Os.trace (sampleGenerate ["a note"; "with no heading"] "docs" []
                   (Os.emptyDir "docs")).1
       = Os.trace (Os.emptyDir "docs") ++ evs
       /\ writes evs
          = match (Os.OpenFile (indexFile "docs") (Os.emptyDir "docs")).2 with
            | None => [(indexFile "docs", sampleHome [])]
            | Some _ => []
            end.
Proof.
  apply (no_heading_no_pages sampleMarkdown sampleHome samplePage sampleTag
           ["a note"; "with no heading"] "docs" [] (Os.emptyDir "docs")).
  - repeat constructor.
  - vm_compute. reflexivity.
Defined.

(** The run that the witness above describes does write the index page. *)
Example no_heading_run :
  let r := sampleGenerate ["a note"; "with no heading"] "docs" []
             (Os.emptyDir "docs") in
  r.2 = None
  /\ writes (Os.trace r.1) = [("docs/index.html", "Articles: ")]
  /\ map_to_list (Os.files r.1) = [("docs/index.html", "Articles: ")].
Proof. vm_compute. done. Qed.





(** The files of that run. *)
Example two_tags_run :
  map_to_list
    (Os.files (sampleGenerate ["# A"; "Date: 2015/03/02"; "Tags: a, b"]
                 "docs" ["a"; "b"] (Os.emptyDir "docs")).1)
  ≡ₚ [("docs/index.html", "Articles: 0.html , 1.html A");
      ("docs/0.html", " Date: 1 Jan 0001 Tags: ");
      ("docs/1.html", "# A Date: 2 Mar 2015 Tags: a, b");
      ("docs/tag/a.html", "Tag: a 1.html A");
      ("docs/tag/b.html", "Tag: b 1.html A")].
Proof.
  apply (bool_decide_unpack _). vm_compute. exact I.
Qed.

Lemma parseFile_indices_witness :
  List.map Index
    (parseFile sampleMarkdown
       ["# A"; "Date: 2015/03/02"; "# B"; "Date: 2015/03/03";
        "# C"; "Date: 2015/03/04"]).1
  = replicate
      (headings ["# A"; "Date: 2015/03/02"; "# B"; "Date: 2015/03/03";
                 "# C"; "Date: 2015/03/04"]) 0
    ++ List.rev
         (Z.of_nat
            <$> seq 1 (headings ["# A"; "Date: 2015/03/02"; "# B";
                                 "Date: 2015/03/03"; "# C";
                                 "Date: 2015/03/04"])).
Proof.
  apply (parseFile_indices sampleMarkdown
           ["# A"; "Date: 2015/03/02"; "# B"; "Date: 2015/03/03";
            "# C"; "Date: 2015/03/04"]
           (parseAll sampleMarkdown
              (records ["# A"; "Date: 2015/03/02"; "# B"; "Date: 2015/03/03";
                        "# C"; "Date: 2015/03/04"])).1).
  - vm_compute. reflexivity.
  - vm_compute. reflexivity.
Defined.

(** The indices of that file: three zero articles, then 3, 2, 1. *)
Example three_records_indices :
  List.map Index
    (parseFile sampleMarkdown
       ["# A"; "Date: 2015/03/02"; "# B"; "Date: 2015/03/03";
        "# C"; "Date: 2015/03/04"]).1
  = [0; 0; 0; 3; 2; 1].
Proof. reflexivity. Qed.

Lemma Generate_writes_witness :
  exists evs,
    Os.trace (sampleGenerate ["# A"; "Date: 2015/03/02"; "Tags: a"] "docs"
                ["a"] (Os.emptyDir "docs")).1
    = Os.trace (Os.emptyDir "docs") ++ evs
    /\ writes evs
       = pageWrites sampleHome samplePage "docs"
           (parseFile sampleMarkdown
              ["# A"; "Date: 2015/03/02"; "Tags: a"]).1
         ++ tagWrites sampleTag "docs"
              (parseFile sampleMarkdown
                 ["# A"; "Date: 2015/03/02"; "Tags: a"]).1
              ["a"].
Proof.
  apply (Generate_writes sampleMarkdown sampleHome samplePage sampleTag
           ["# A"; "Date: 2015/03/02"; "Tags: a"] "docs" ["a"]
           (Os.emptyDir "docs")).
  - vm_compute. reflexivity.
  - vm_compute. reflexivity.
Defined.

Lemma last_date_line_wins_witness :
  (parseArticle sampleMarkdown "# A"
     (["Date: 2014/01/01"; "text"] ++ "Date: 2015/03/02" :: ["more"])).2
  = None
  /\ Date (parseArticle sampleMarkdown "# A"
             (["Date: 2014/01/01"; "text"] ++ "Date: 2015/03/02" :: ["more"])).1
     = Time.mkTime 2015 3 2.
Proof.
  apply (last_date_line_wins sampleMarkdown "# A" ["Date: 2014/01/01"; "text"]
           "Date: 2015/03/02" ["more"] (Time.mkTime 2015 3 2)).
  - reflexivity.
  - repeat constructor.
  - reflexivity.
Defined.

Lemma last_tags_line_wins_witness :
  Tags (parseArticle sampleMarkdown "# A"
          (["Tags: old"; "Date: 2015/03/02"] ++ "Tags: go, web" :: ["text"])).1
  = List.map Strings.TrimSpace
      (Strings.Split (Strings.TrimLeft "Tags: go, web" "Tags:") ",").
Proof.
  apply (last_tags_line_wins sampleMarkdown "# A"
           ["Tags: old"; "Date: 2015/03/02"] "Tags: go, web" ["text"]).
  - reflexivity.
  - repeat constructor.
  - reflexivity.
Defined.

(** The tags of that record. *)
Example last_tags_line_tags :
  Tags (parseArticle sampleMarkdown "# A"
          ["Tags: old"; "Date: 2015/03/02"; "Tags: go, web"; "text"]).1
  = ["go"; "web"].
Proof. reflexivity. Qed.

Lemma parseArticle_content_witness :
  Content (parseArticle sampleMarkdown "#  A  "
             ["Date: 2015/03/02"; "one"; "Tags: x"; "two"]).1
  = sampleMarkdown
      (Strings.Join
         ("#  A  "
          :: List.filter
               (fun line => negb (Strings.HasPrefix line "Date:")
                            && negb (Strings.HasPrefix line "Tags:"))
               ["Date: 2015/03/02"; "one"; "Tags: x"; "two"])
         newline)
  /\ Header (parseArticle sampleMarkdown "#  A  "
               ["Date: 2015/03/02"; "one"; "Tags: x"; "two"]).1
     = Strings.TrimSpace (Strings.TrimLeft "#  A  " "# ")
  /\ Index (parseArticle sampleMarkdown "#  A  "
              ["Date: 2015/03/02"; "one"; "Tags: x"; "two"]).1 = 0.
Proof.
  apply (parseArticle_content sampleMarkdown "#  A  "
           ["Date: 2015/03/02"; "one"; "Tags: x"; "two"]).
  reflexivity.
Defined.

(** The heading and the markdown source of that record. *)
Example parseArticle_content_values :
  let a := (parseArticle sampleMarkdown "#  A  "
              ["Date: 2015/03/02"; "one"; "Tags: x"; "two"]).1 in
  Header a = "A"
  /\ Content a = Strings.Join ["#  A  "; "one"; "two"] newline.
Proof. split; reflexivity. Qed.

Lemma parseArticle_has_a_tag_witness :
  exists tag rest,
    Tags (parseArticle sampleMarkdown "# A" ["Date: 2015/03/02"; "Tags:,"]).1
    = tag :: rest.
Proof.
  apply (parseArticle_has_a_tag sampleMarkdown "# A"
           ["Date: 2015/03/02"; "Tags:,"]).
  reflexivity.
Defined.

Lemma lines_above_first_heading_witness :
  parseFile sampleMarkdown (["Date: 2015/03/02"] ++ "# A" :: ["text"])
  = parseFile sampleMarkdown ("# A" :: ["Date: 2015/03/02"] ++ ["text"])
  /\ records (["Date: 2015/03/02"] ++ "# A" :: ["text"])
     = records ("# A" :: ["Date: 2015/03/02"] ++ ["text"]).
Proof.
  apply (lines_above_first_heading sampleMarkdown ["Date: 2015/03/02"] "# A"
           ["text"]).
  - repeat constructor.
  - reflexivity.
Defined.

(** A date above the first heading is the date of the first article. *)
Example date_above_first_heading :
  (parseFile sampleMarkdown ["Date: 2015/03/02"; "# A"; "text"]).2 = None
  /\ List.map Date (parseFile sampleMarkdown
                      ["Date: 2015/03/02"; "# A"; "text"]).1
     = [Time.zero; Time.mkTime 2015 3 2].
Proof. split; reflexivity. Qed.

Lemma tag_pages_one_per_tag_witness :
  NoDup (map_to_list
           (buildTagMap
              [mkArticle "A" "" ["go"; "web"] Time.zero 1;
               mkArticle "B" "" ["go"] Time.zero 2])).*1
  /\ forall tag,
       tag ∈ (map_to_list
                (buildTagMap
                   [mkArticle "A" "" ["go"; "web"] Time.zero 1;
                    mkArticle "B" "" ["go"] Time.zero 2])).*1
       <-> exists a,
             a ∈ [mkArticle "A" "" ["go"; "web"] Time.zero 1;
                  mkArticle "B" "" ["go"] Time.zero 2]
             /\ tag ∈ Tags a.
Proof.
  apply (tag_pages_one_per_tag
           [mkArticle "A" "" ["go"; "web"] Time.zero 1;
            mkArticle "B" "" ["go"] Time.zero 2]).
  unfold rangeOrder. reflexivity.
Defined.

(** The tag map of those two articles. *)
Example two_articles_tag_map :
  let a := mkArticle "A" "" ["go"; "web"] Time.zero 1 in
  let b := mkArticle "B" "" ["go"] Time.zero 2 in
  buildTagMap [a; b] !! "go" = Some [a; b]
  /\ buildTagMap [a; b] !! "web" = Some [a]
  /\ buildTagMap [a; b] !! "art" = None.
Proof. vm_compute. done. Qed.

Lemma generateArticlePages_stops_at_first_error_witness :
  exists written failed rest,
    [mkArticle "A" "a" [] Time.zero 1; mkArticle "B" "b" [] Time.zero 2;
     mkArticle "C" "c" [] Time.zero 3]
    = written ++ failed :: rest
    /\ generateArticlePages samplePage "docs" written
         (Os.mkFS ∅ {["docs"; "docs/2.html"]} [])
       = ((generateArticlePages samplePage "docs"
             [mkArticle "A" "a" [] Time.zero 1;
              mkArticle "B" "b" [] Time.zero 2;
              mkArticle "C" "c" [] Time.zero 3]
             (Os.mkFS ∅ {["docs"; "docs/2.html"]} [])).1,
          None)
    /\ Os.OpenFile (articleFile "docs" (Index failed))
         (generateArticlePages samplePage "docs"
            [mkArticle "A" "a" [] Time.zero 1;
             mkArticle "B" "b" [] Time.zero 2;
             mkArticle "C" "c" [] Time.zero 3]
            (Os.mkFS ∅ {["docs"; "docs/2.html"]} [])).1
       = ((generateArticlePages samplePage "docs"
             [mkArticle "A" "a" [] Time.zero 1;
              mkArticle "B" "b" [] Time.zero 2;
              mkArticle "C" "c" [] Time.zero 3]
             (Os.mkFS ∅ {["docs"; "docs/2.html"]} [])).1,
          Some (PathError "open" "docs/2.html" EISDIR)).
Proof.
  apply (generateArticlePages_stops_at_first_error samplePage "docs"
           [mkArticle "A" "a" [] Time.zero 1;
            mkArticle "B" "b" [] Time.zero 2;
            mkArticle "C" "c" [] Time.zero 3]
           (Os.mkFS ∅ {["docs"; "docs/2.html"]} [])).
  vm_compute. reflexivity.
Defined.

(** The files of that run: the first page only. *)
Example first_page_only :
  map_to_list
    (Os.files
       (generateArticlePages samplePage "docs"
          [mkArticle "A" "a" [] Time.zero 1;
           mkArticle "B" "b" [] Time.zero 2;
           mkArticle "C" "c" [] Time.zero 3]
          (Os.mkFS ∅ {["docs"; "docs/2.html"]} [])).1)
  = [("docs/1.html", "a Date: 1 Jan 0001 Tags: ")].
Proof. vm_compute. reflexivity. Qed.

Lemma generateTags_makes_tag_directory_witness :
  (Os.files (Os.emptyDir "docs") !! Path.Join ["docs"; "tag"] = None ->
   Path.Join ["docs"; "tag"]
   ∈ Os.dirs
       (generateTags sampleTag "docs"
          [mkArticle "A" "a" ["go"] Time.zero 1] ["go"]
          (Os.emptyDir "docs")).1)
  /\ (Os.exists_ (Path.Join ["docs"; "tag"]) (Os.emptyDir "docs") = true ->
      Os.dirs
        (generateTags sampleTag "docs"
           [mkArticle "A" "a" ["go"] Time.zero 1] ["go"]
           (Os.emptyDir "docs")).1
      = Os.dirs (Os.emptyDir "docs"))
  /\ Os.dirs
       (generateTags sampleTag "docs"
          [mkArticle "A" "a" ["go"] Time.zero 1] ["go"]
          (Os.emptyDir "docs")).1
     ⊆ {[Path.Join ["docs"; "tag"]]} ∪ Os.dirs (Os.emptyDir "docs").
Proof.
  apply (generateTags_makes_tag_directory sampleTag "docs"
           [mkArticle "A" "a" ["go"] Time.zero 1] ["go"]
           (Os.emptyDir "docs")).
  vm_compute. reflexivity.
Defined.

(** The tag directory of that run, and a run on a directory in which the
    name of the tag directory is a regular file: no directory is made. *)
Example tag_directory_runs :
  Os.dirs
    (generateTags sampleTag "docs"
       [mkArticle "A" "a" ["go"] Time.zero 1] ["go"]
       (Os.emptyDir "docs")).1
  = {["docs"; "docs/tag"]}
  /\ generateTags sampleTag "docs" [] []
       (Os.mkFS {["docs/tag" := "a file"]} {["docs"]} [])
     = (Os.mkFS {["docs/tag" := "a file"; "docs/index.html" := ""]}
          {["docs"]} [Os.Opened "docs/index.html"],
        None).
Proof. vm_compute. done. Qed.

Lemma Generate_index_unopenable_witness :
  sampleGenerate ["# A"; "Date: 2015/03/02"] "docs" [""] (Os.mkFS ∅ ∅ [])
  = (Os.mkFS ∅ ∅ [], Some (PathError "open" "docs/index.html" ENOENT)).
Proof.
  apply (Generate_index_unopenable sampleMarkdown sampleHome samplePage
           sampleTag ["# A"; "Date: 2015/03/02"] "docs" [""]
           (Os.mkFS ∅ ∅ [])).
  - reflexivity.
  - vm_compute. reflexivity.
Defined.

Lemma Generate_files_exist_witness :
  is_Some
    (Os.files
       (sampleGenerate ["# A"; "Date: 2015/03/02"; "Tags: a"] "docs" ["a"]
          (Os.emptyDir "docs")).1
     !! "docs/tag/a.html").
Proof.
  apply (Generate_files_exist sampleMarkdown sampleHome samplePage sampleTag
           ["# A"; "Date: 2015/03/02"; "Tags: a"] "docs" ["a"]
           (Os.emptyDir "docs") _
           (parseFile sampleMarkdown
              ["# A"; "Date: 2015/03/02"; "Tags: a"]).1).
  - vm_compute. reflexivity.
  - vm_compute. reflexivity.
  - vm_compute. do 3 apply list_elem_of_further. apply list_elem_of_here.
Defined.

Lemma missing_or_bad_date_aborts_witness :
  exists e,
    parseFile sampleMarkdown
      ["# A"; "Date: 2015/03/02"; "# B"; "Date: 2014/01/01";
       "Date: 2015/02/30"; "text"]
    = ([], Some e)
    /\ sampleGenerate
         ["# A"; "Date: 2015/03/02"; "# B"; "Date: 2014/01/01";
          "Date: 2015/02/30"; "text"]
         "docs" [] (Os.emptyDir "docs")
       = (Os.emptyDir "docs", Some e).
Proof.
  apply (missing_or_bad_date_aborts sampleMarkdown sampleHome samplePage
           sampleTag
           ["# A"; "Date: 2015/03/02"; "# B"; "Date: 2014/01/01";
            "Date: 2015/02/30"; "text"]
           "# B" ["Date: 2014/01/01"; "Date: 2015/02/30"; "text"]
           "docs" [] (Os.emptyDir "docs")).
  - vm_compute. apply list_elem_of_further, list_elem_of_here.
  - right. exists ["Date: 2014/01/01"], "Date: 2015/02/30", ["text"].
    split; [reflexivity|]. split; [reflexivity|].
    split; [repeat constructor|]. split; reflexivity.
Defined.

(** A record with no Date line at all. *)
Example no_date_line_aborts :
  sampleGenerate ["# A"; "Date: 2015/03/02"; "# B"; "no date"] "docs" []
    (Os.emptyDir "docs")
  = (Os.emptyDir "docs", Some (ParseError "2006/01/02" "")).
Proof. vm_compute. reflexivity. Qed.

(** C4, as stated, fails, in two ways.  (1) In the file of the lines
    [Date: 2015/03/02], [# A], [text] the record of the heading [# A],
    which is that line and the line after it, has no Date line; the
    parser counts the line above the heading to the record, returns no
    error, and the run writes its pages.  (2) In the record [# A],
    [Date:ate 2015/03/02] the text after the prefix [Date:] is no date;
    [strings.TrimLeft] removes the letters [ate] with the prefix, the
    rest parses, and the run writes its pages. *)
Lemma date_failure_without_error :
  let texts1 := ["Date: 2015/03/02"; "# A"; "text"] in
  let texts2 := ["# A"; "Date:ate 2015/03/02"] in
  let written := fun texts =>
    (writes (Os.trace (sampleGenerate texts "docs" [""]
                         (Os.emptyDir "docs")).1)).*1 in
  (glossaryRecords texts1 = [("# A", ["text"])]
   /\ forallb (fun line => negb (Strings.HasPrefix line "Date:")) ["text"]
      = true
   /\ (parseFile sampleMarkdown texts1).2 = None
   /\ written texts1
      = ["docs/index.html"; "docs/0.html"; "docs/1.html"; "docs/tag/.html"])
  /\ (glossaryRecords texts2 = [("# A", ["Date:ate 2015/03/02"])]
      /\ Time.Parse
           (Strings.TrimSpace
              (Strings.TrimPrefix "Date:ate 2015/03/02" "Date:"))
         = None
      /\ (parseFile sampleMarkdown texts2).2 = None
      /\ written texts2
         = ["docs/index.html"; "docs/0.html"; "docs/1.html";
            "docs/tag/.html"]).
Proof. vm_compute. done. Qed.
